(** * Attendance with face recognition: the matching and liveness core of app.py

    A shallow embedding of the parts of [app.py] that decide attendance:
    the motion-based liveness check ([frames_have_motion]), the encoding
    cache ([compute_face_encoding_from_file]), the photo handlers that are
    supposed to keep that cache coherent ([api_replace_photo],
    [api_delete_student]) and the attendance handler
    ([api_mark_attendance]).

    Conventions.
    - Python [str] and [bytes] are [string]; Python [int] is [Z] or [nat].
    - A Python call that may raise is modelled by [option] (for library
      calls, [None] = the call raised) or by [result] (for functions of
      app.py that either return or let an exception escape).
    - The libraries the program calls (base64, PIL, numpy on decoded
      images, face_recognition, the clock) are the fields of the class
      [Env]; app.py's own code is written out over them.
    - Distances are IEEE doubles in the program and rationals here: every
      finite double is a rational, [0.50] is exactly 1/2, and the
      comparison [<] agrees on them.  NaN is outside the model. *)

From Stdlib Require Import ZArith QArith List String Ascii Lia Bool DecimalString.
From stdpp Require Import gmap strings list.
Import ListNotations.

Close Scope Q_scope.
Local Open Scope string_scope.
Local Open Scope list_scope.

(* ===================================================================== *)
(** * Part I: the model                                                  *)
(* ===================================================================== *)

(** ** Python strings *)

Module Py.

(** [s.split(",", 1)[1]] when ["," in s]: what follows the first comma. *)
Fixpoint after_comma (s : string) : option string :=
  match s with
  | EmptyString => None
  | String c r => if Ascii.eqb c "," then Some r else after_comma r
  end.

(** [if "," in b64: b64 = b64.split(",", 1)[1]] *)
Definition strip_data_url (b64 : string) : string :=
  match after_comma b64 with
  | Some r => r
  | None => b64
  end.

(** [sub in s] on strings. *)
Fixpoint contains (sub s : string) : bool :=
  String.prefix sub s ||
  match s with
  | EmptyString => false
  | String _ r => contains sub r
  end.

(** [str(n)] / [f"{n}"] for a non-negative int. *)
Definition str (n : nat) : string := NilZero.string_of_uint (Nat.to_uint n).

(** Truthiness of a [str]. *)
Definition truthy (s : string) : bool :=
  match s with EmptyString => false | _ => true end.

End Py.

(** ** Results of functions that may let an exception escape *)

Inductive result (A : Type) : Type :=
| Returns (a : A)
| Raises.
Arguments Returns {A} a.
Arguments Raises {A}.

(** ** numpy arrays of a decoded grayscale image *)

Module Np.

(** A two-dimensional integer array in row-major order, as numpy stores
    it: [shape = (rows, cols)]. *)
Record ndarray := mk_ndarray { rows : nat; cols : nat; data : list Z }.

Definition get (a : ndarray) (i j : nat) : Z := nth (i * cols a + j) (data a) 0%Z.

(** Two's-complement wrap to 16 bits: the value an [int16] holds. *)
Definition wrap16 (z : Z) : Z := ((z + 32768) mod 65536 - 32768)%Z.

(** [a.astype("int16")] *)
Definition astype_int16 (a : ndarray) : ndarray :=
  mk_ndarray (rows a) (cols a) (map wrap16 (data a)).

(** numpy broadcasting of one dimension: equal, or one of them is 1. *)
Definition bdim (m n : nat) : option nat :=
  if (m =? n)%nat then Some m
  else if (m =? 1)%nat then Some n
  else if (n =? 1)%nat then Some m
  else None.

(** Index into a dimension of extent [m] that may have been stretched. *)
Definition bidx (m i : nat) : nat := if (m =? 1)%nat then 0%nat else i.

Definition positions (h w : nat) : list (nat * nat) := list_prod (seq 0 h) (seq 0 w).

(** [a - b] on int16 arrays; [None] is numpy's
    "operands could not be broadcast together" ValueError. *)
Definition sub (a b : ndarray) : option ndarray :=
  match bdim (rows a) (rows b), bdim (cols a) (cols b) with
  | Some h, Some w =>
      Some (mk_ndarray h w
              (map (fun p : nat * nat =>
                      wrap16 (get a (bidx (rows a) (fst p)) (bidx (cols a) (snd p))
                              - get b (bidx (rows b) (fst p)) (bidx (cols b) (snd p))))
                   (positions h w)))
  | _, _ => None
  end.

(** [np.abs(d)] on an int16 array. *)
Definition abs (d : ndarray) : ndarray :=
  mk_ndarray (rows d) (cols d) (map (fun z => wrap16 (Z.abs z)) (data d)).

(** [int((diff > t).sum())] *)
Definition count_gt (diff : ndarray) (t : Z) : Z :=
  Z.of_nat (length (List.filter (fun z => (t <? z)%Z) (data diff))).

(** The pixels of an 8-bit image lie in [0, 255]. *)
Definition is_uint8 (a : ndarray) : bool :=
  forallb (fun z => (0 <=? z)%Z && (z <=? 255)%Z) (data a).

(** Comparison of rationals, [x < y]. *)
Definition Qltb (x y : Q) : bool := negb (Qle_bool y x).

(** [np.argmin] scans left to right and keeps the first minimum. *)
Fixpoint argmin_from (best_i : nat) (best : Q) (i : nat) (l : list Q) : nat :=
  match l with
  | [] => best_i
  | x :: r => if Qltb x best then argmin_from i x (S i) r
              else argmin_from best_i best (S i) r
  end.

(** [int(np.argmin(distances))]; numpy raises on an empty array, which the
    caller excludes with its [len(known_encodings) == 0] test. *)
Definition argmin (l : list Q) : nat :=
  match l with
  | [] => 0%nat
  | x :: r => argmin_from 0 x 1 r
  end.

End Np.

(** ** The libraries and globals the program depends on *)

Definition bytes := string.
Definition encoding := list Q.
Definition rgb_image := list (list (Z * Z * Z)).

(** What [datetime.datetime.now()] is formatted to by the handlers. *)
Record datetime := mk_datetime {
  strftime_date : string;   (* "%Y-%m-%d" *)
  strftime_time : string;   (* "%H:%M:%S" *)
  strftime_stamp : string;  (* "%Y%m%d%H%M%S" *)
  isoformat : string
}.

Class Env := {
  FACE_LIB_AVAILABLE : bool;
  PHOTO_DIR : string;
  (** [base64.b64decode] *)
  b64decode : string -> option bytes;
  (** [np.array(Image.open(io.BytesIO(raw)).convert("L"))] *)
  Image_open_L : bytes -> option Np.ndarray;
  (** [Image.open(io.BytesIO(raw)).convert("RGB")] *)
  Image_open_RGB : bytes -> option rgb_image;
  (** [face_recognition.load_image_file] applied to a file's content *)
  load_image_file : bytes -> option rgb_image;
  (** [face_recognition.face_encodings] *)
  face_encodings : rgb_image -> list encoding;
  (** one entry of [face_recognition.face_distance(known, unk)] *)
  face_distance : encoding -> encoding -> Q;
  (** the n-th reading of [datetime.datetime.now()] *)
  now : nat -> datetime
}.

(** ** Motion-based liveness check *)

Section Liveness.
Context `{E : Env}.

(** The body of the [try] in the first loop of [frames_have_motion]. *)
Definition decode_gray (b64 : string) : option Np.ndarray :=
  match b64decode (Py.strip_data_url b64) with
  | Some raw => Image_open_L raw
  | None => None
  end.

(** The first loop: [None] is the [return False] of the [except]. *)
Fixpoint gray_loop (frames : list string) (gray_frames : list Np.ndarray)
  : option (list Np.ndarray) :=
  match frames with
  | [] => Some gray_frames
  | b64 :: rest =>
      match decode_gray b64 with
      | Some arr => gray_loop rest (gray_frames ++ [arr])
      | None => None
      end
  end.

(** [cnt] of one iteration of the second loop. *)
Definition pair_count (a0 b0 : Np.ndarray) (diff_threshold : Z) : option Z :=
  let a := Np.astype_int16 a0 in
  let b := Np.astype_int16 b0 in
  match Np.sub a b with
  | Some d => Some (Np.count_gt (Np.abs d) diff_threshold)
  | None => None
  end.

Definition empty_array : Np.ndarray := Np.mk_ndarray 0 0 [].

(** The second loop, over the indices [range(len(gray_frames)-1)]. *)
Fixpoint pair_loop (gray_frames : list Np.ndarray) (indices : list nat)
         (threshold_pixels diff_threshold : Z) : result bool :=
  match indices with
  | [] => Returns false
  | i :: rest =>
      match pair_count (nth i gray_frames empty_array)
                       (nth (i + 1) gray_frames empty_array) diff_threshold with
      | None => Raises
      | Some cnt =>
          if (threshold_pixels <? cnt)%Z then Returns true
          else pair_loop gray_frames rest threshold_pixels diff_threshold
      end
  end.

Definition frames_have_motion (frames_b64_list : list string)
           (threshold_pixels diff_threshold : Z) : result bool :=
  if (length frames_b64_list =? 0)%nat || (length frames_b64_list <? 2)%nat
  then Returns false
  else
    match gray_loop frames_b64_list [] with
    | None => Returns false
    | Some gray_frames =>
        pair_loop gray_frames (seq 0 (length gray_frames - 1))
                  threshold_pixels diff_threshold
    end.

(** The call with the defaults [threshold_pixels=1000, diff_threshold=30]. *)
Definition frames_have_motion_default (frames : list string) : result bool :=
  frames_have_motion frames 1000 30.

End Liveness.

(** ** JSON values and HTTP responses *)

#[warnings="-register-all"]
Inductive json : Type :=
| JNull
| JBool (b : bool)
| JInt (n : Z)
| JNum (q : Q)
| JStr (s : string)
| JList (l : list json)
| JObj (fields : list (string * json)).

(** [obj[key]] of a JSON object, [None] when the key is missing. *)
Fixpoint assoc (key : string) (fields : list (string * json)) : option json :=
  match fields with
  | [] => None
  | (k, v) :: rest => if String.eqb k key then Some v else assoc key rest
  end.

Definition json_get (key : string) (j : json) : option json :=
  match j with
  | JObj fields => assoc key fields
  | _ => None
  end.

(** [jsonify(body), status] *)
Record Response := mk_response { status : nat; body : json }.

Definition failure (code : nat) (message : string) : Response :=
  mk_response code (JObj [("success", JBool false); ("message", JStr message)]).

(** ** The database, the photo directory and the module globals *)

(** Only the columns the modelled handlers read or write are kept in
    [student_row]. *)
Record student_row := mk_student {
  s_student_id : nat; s_roll_no : option string; s_name : string }.

Record photo_row := mk_photo {
  p_id : nat; p_student_id : nat; p_photo_path : string;
  p_filename : string; p_created_at : string }.

Record attendance_row := mk_attendance {
  a_id : nat; a_student_id : nat; a_date : string; a_time_in : string;
  a_status : string; a_created_at : string }.

Record World := mk_world {
  students : list student_row;
  photos : list photo_row;
  attendance : list attendance_row;
  photos_seq : nat;                     (* last AUTOINCREMENT id of photos *)
  attendance_seq : nat;                 (* last AUTOINCREMENT id of attendance *)
  files : gmap string bytes;            (* the files on disk, by path *)
  ENCODING_CACHE : gmap string encoding;
  clock : nat;                          (* readings of datetime.now() so far *)
  extractions : list string;            (* paths handed to the extractor, latest first *)
  threads : list string                 (* cache-warming threads started, not yet run *)
}.

Definition with_photos (w : World) (ps : list photo_row) (seq' : nat) : World :=
  mk_world (students w) ps (attendance w) seq' (attendance_seq w) (files w)
           (ENCODING_CACHE w) (clock w) (extractions w) (threads w).

Definition with_attendance (w : World) (rows : list attendance_row) (seq' : nat) : World :=
  mk_world (students w) (photos w) rows (photos_seq w) seq' (files w)
           (ENCODING_CACHE w) (clock w) (extractions w) (threads w).

Definition with_students (w : World) (ss : list student_row) : World :=
  mk_world ss (photos w) (attendance w) (photos_seq w) (attendance_seq w) (files w)
           (ENCODING_CACHE w) (clock w) (extractions w) (threads w).

Definition with_files (w : World) (fs : gmap string bytes) : World :=
  mk_world (students w) (photos w) (attendance w) (photos_seq w) (attendance_seq w) fs
           (ENCODING_CACHE w) (clock w) (extractions w) (threads w).

Definition with_cache (w : World) (c : gmap string encoding) : World :=
  mk_world (students w) (photos w) (attendance w) (photos_seq w) (attendance_seq w)
           (files w) c (clock w) (extractions w) (threads w).

Definition with_extractions (w : World) (l : list string) : World :=
  mk_world (students w) (photos w) (attendance w) (photos_seq w) (attendance_seq w)
           (files w) (ENCODING_CACHE w) (clock w) l (threads w).

Definition with_threads (w : World) (l : list string) : World :=
  mk_world (students w) (photos w) (attendance w) (photos_seq w) (attendance_seq w)
           (files w) (ENCODING_CACHE w) (clock w) (extractions w) l.

Definition tick (w : World) : World :=
  mk_world (students w) (photos w) (attendance w) (photos_seq w) (attendance_seq w)
           (files w) (ENCODING_CACHE w) (S (clock w)) (extractions w) (threads w).

(** [ENCODING_CACHE.pop(k, None)] *)
Definition evict (k : string) (w : World) : World :=
  with_cache w (delete k (ENCODING_CACHE w)).

(** ** The encoding cache *)

Section Cache.
Context `{E : Env}.

(** [face_recognition.load_image_file(path)] followed by
    [face_recognition.face_encodings(img)], inside the [try]: [None] when
    either raised (the file is missing or is not an image). *)
Definition extract (w : World) (path : string) : option (list encoding) :=
  match files w !! path with
  | Some content =>
      match load_image_file content with
      | Some img => Some (face_encodings img)
      | None => None
      end
  | None => None
  end.

Definition compute_face_encoding_from_file (path : string) (w : World)
  : World * option encoding :=
  if negb FACE_LIB_AVAILABLE then (w, None)
  else
    match ENCODING_CACHE w !! path with
    | Some enc => (w, Some enc)
    | None =>
        let w1 := with_extractions w (path :: extractions w) in
        match extract w path with
        | Some (enc :: _) => (with_cache w1 (<[path := enc]> (ENCODING_CACHE w1)), Some enc)
        | Some [] => (w1, None)
        | None => (w1, None)
        end
    end.

(** [compute_face_encodings_from_pil] *)
Definition compute_face_encodings_from_pil (pil_img : rgb_image) : list encoding :=
  if negb FACE_LIB_AVAILABLE then [] else face_encodings pil_img.

(** The target of the threads the photo handlers start: one pending
    thread runs to completion. *)
Definition run_thread (w : World) : World :=
  match threads w with
  | [] => w
  | path :: rest => fst (compute_face_encoding_from_file path (with_threads w rest))
  end.

End Cache.

(** ** Request handlers *)

(** The JSON body of [POST /api/mark_attendance]: [frames] is a list of
    strings when present, [image] a string. *)
Record mark_request := mk_mark_request {
  frames : option (list string);
  image : option string
}.

(** The JSON body of [POST /api/replace_photo]. *)
Record photo_request := mk_photo_request {
  req_student_id : option nat;
  req_photo : option string
}.

(** A gallery entry's [(pid, sid, ppath)]. *)
Definition meta : Type := nat * nat * string.

Section Handlers.
Context `{E : Env}.

(** [Image.open(io.BytesIO(base64.b64decode(s'))).convert("RGB")] with
    [s'] the text after the data-URL prefix; [None] when it raises. *)
Definition decode_rgb (s : string) : option rgb_image :=
  match b64decode (Py.strip_data_url s) with
  | Some img_bytes => Image_open_RGB img_bytes
  | None => None
  end.

(** [frames and isinstance(frames, list) and len(frames) >= 2] *)
Definition usable_frames (fs : option (list string)) : option (list string) :=
  match fs with
  | Some l => if negb (length l =? 0)%nat && (2 <=? length l)%nat then Some l else None
  | None => None
  end.

Definition not_live_response : Response :=
  failure 403 "No motion detected — likely spoof (Option C)".

Definition liveness_failed_response : Response :=
  failure 500 "Motion/liveness check failed".

Definition undecodable_image_response : Response :=
  failure 400 "Failed to decode image".

Definition provide_input_response : Response :=
  failure 400 "Provide 'frames' (recommended) or 'image'".

(** The [if / elif / else] that picks the image to recognise:
    a response when the handler returns early, else [(pil_img,
    liveness_checked)].  The text of the exception that the source
    appends to its 500 and 400 messages is not modelled. *)
Definition select_image (data : mark_request) : Response + (rgb_image * bool) :=
  match usable_frames (frames data) with
  | Some fs =>
      match frames_have_motion_default fs with
      | Raises => inl liveness_failed_response
      | Returns false => inl not_live_response
      | Returns true =>
          let mid := nth (Nat.div (length fs) 2) fs "" in
          match decode_rgb mid with
          | Some pil_img => inr (pil_img, true)
          | None => inl liveness_failed_response
          end
      end
  | None =>
      match image data with
      | Some image_single =>
          if Py.truthy image_single then
            match decode_rgb image_single with
            | Some pil_img => inr (pil_img, false)
            | None => inl undecodable_image_response
            end
          else inl provide_input_response
      | None => inl provide_input_response
      end
  end.

(** The loop that builds [known_encodings] and [known_meta]. *)
Fixpoint gallery_loop (rows : list photo_row) (w : World)
         (known_encodings : list encoding) (known_meta : list meta)
  : World * list encoding * list meta :=
  match rows with
  | [] => (w, known_encodings, known_meta)
  | r :: rest =>
      let '(w1, enc) := compute_face_encoding_from_file (p_photo_path r) w in
      match enc with
      | Some e =>
          gallery_loop rest w1 (known_encodings ++ [e])
                       (known_meta ++ [(p_id r, p_student_id r, p_photo_path r)])
      | None => gallery_loop rest w1 known_encodings known_meta
      end
  end.

(** [face_recognition.face_distance(known_encodings, unk)] *)
Definition distances_to (known_encodings : list encoding) (unk : encoding) : list Q :=
  map (fun k => face_distance k unk) known_encodings.

(** [SELECT name, roll_no FROM students WHERE student_id=?] and the two
    conditional expressions on its row. *)
Definition student_name (w : World) (sid : nat) : json :=
  match find (fun s => (s_student_id s =? sid)%nat) (students w) with
  | Some s => JStr (s_name s)
  | None => JStr "Unknown"
  end.

Definition student_roll (w : World) (sid : nat) : json :=
  match find (fun s => (s_student_id s =? sid)%nat) (students w) with
  | Some s => match s_roll_no s with Some r => JStr r | None => JNull end
  | None => JStr "-"
  end.

(** [INSERT INTO attendance (student_id, date, time_in, status, created_at)]
    with a fresh reading of the clock. *)
Definition insert_attendance (sid : nat) (w : World) : World :=
  let t := now (clock w) in
  let w1 := tick w in
  let row := mk_attendance (S (attendance_seq w1)) sid (strftime_date t)
                           (strftime_time t) "present" (isoformat t) in
  with_attendance w1 (attendance w1 ++ [row]) (S (attendance_seq w1)).

Definition match_entry (w : World) (m : meta) (best_distance : Q) : json :=
  let '(pid, sid, ppath) := m in
  JObj [("student_id", JInt (Z.of_nat sid)); ("name", student_name w sid);
        ("roll_no", student_roll w sid); ("photo_path", JStr ppath);
        ("distance", JNum best_distance)].

(** Never read: [best_idx] is within [known_meta]. *)
Definition no_meta : meta := (0%nat, 0%nat, "").

(** One iteration of [for unk in unknown_encs]. *)
Definition match_one (known_encodings : list encoding) (known_meta : list meta)
           (unk : encoding) (st : World * list json) : World * list json :=
  let '(w, matches) := st in
  if (length known_encodings =? 0)%nat then st
  else
    let distances := distances_to known_encodings unk in
    let best_idx := Np.argmin distances in
    let best_distance := nth best_idx distances 0%Q in
    if Np.Qltb best_distance (1 # 2) then
      let m := nth best_idx known_meta no_meta in
      (insert_attendance (snd (fst m)) w, matches ++ [match_entry w m best_distance])
    else st.

Fixpoint match_loop (known_encodings : list encoding) (known_meta : list meta)
         (unknown_encs : list encoding) (st : World * list json) : World * list json :=
  match unknown_encs with
  | [] => st
  | unk :: rest =>
      match_loop known_encodings known_meta rest
                 (match_one known_encodings known_meta unk st)
  end.

Definition no_faces_response : Response :=
  mk_response 200 (JObj [("success", JBool true); ("matched", JList []);
                         ("message", JStr "No faces found")]).

(** The handler from [unknown_encs = ...] to its last line. *)
Definition recognise (pil_img : rgb_image) (liveness_checked : bool) (w : World)
  : World * Response :=
  let unknown_encs := compute_face_encodings_from_pil pil_img in
  match unknown_encs with
  | [] => (w, no_faces_response)
  | _ :: _ =>
      let '(w1, known_encodings, known_meta) := gallery_loop (photos w) w [] [] in
      let '(w2, matches) := match_loop known_encodings known_meta unknown_encs (w1, []) in
      (w2, mk_response 200 (JObj [("success", JBool true); ("matched", JList matches);
                                  ("liveness_checked", JBool liveness_checked)]))
  end.

Definition api_mark_attendance (data : mark_request) (w : World) : World * Response :=
  if negb FACE_LIB_AVAILABLE then
    (w, failure 500 "face_recognition / numpy not available on server")
  else
    match select_image data with
    | inl resp => (w, resp)
    | inr (pil_img, liveness_checked) => recognise pil_img liveness_checked w
    end.

(** [os.path.join(PHOTO_DIR, filename)] for a relative [filename]. *)
Definition photo_path_of (filename : string) : string := PHOTO_DIR +:+ "/" +:+ filename.

(** [save_base64_image]: [None] when [b64decode] raises. *)
Definition save_base64_image (base64_data filename : string) (w : World)
  : option (World * string) :=
  match b64decode (Py.strip_data_url base64_data) with
  | Some img_bytes =>
      let path := photo_path_of filename in
      Some (with_files w (<[path := img_bytes]> (files w)), path)
  | None => None
  end.

(** [for (p,) in old: if p and os.path.exists(p): os.remove(p)] *)
Definition remove_files (paths : list string) (fs : gmap string bytes) : gmap string bytes :=
  fold_left (fun acc p => delete p acc) paths fs.

(** [SELECT photo_path FROM photos WHERE student_id=?] *)
Definition photo_paths_of (w : World) (student_id : nat) : list string :=
  map p_photo_path (List.filter (fun p => (p_student_id p =? student_id)%nat) (photos w)).

(** [DELETE FROM photos WHERE student_id=?] *)
Definition delete_photo_rows (student_id : nat) (w : World) : World :=
  with_photos w (List.filter (fun p => negb (p_student_id p =? student_id)%nat) (photos w))
              (photos_seq w).

Definition api_replace_photo (data : photo_request) (w : World) : World * Response :=
  match req_student_id data, req_photo data with
  | Some student_id, Some photo_b64 =>
      if (student_id =? 0)%nat || negb (Py.truthy photo_b64) then
        (w, failure 400 "student_id and photo required")
      else
        match find (fun s => (s_student_id s =? student_id)%nat) (students w) with
        | None => (w, failure 404 "student_id not found")
        | Some _ =>
            let old := photo_paths_of w student_id in
            let w1 := with_files w (remove_files old (files w)) in
            let w2 := delete_photo_rows student_id w1 in
            let ts := strftime_stamp (now (clock w2)) in
            let w3 := tick w2 in
            let filename := Py.str student_id +:+ "_" +:+ ts +:+ ".png" in
            match save_base64_image photo_b64 filename w3 with
            | None => (w3, failure 500 "Error saving replacement photo")
            | Some (w4, saved) =>
                let created_at := isoformat (now (clock w4)) in
                let w5 := tick w4 in
                let row := mk_photo (S (photos_seq w5)) student_id saved filename created_at in
                let w6 := with_photos w5 (photos w5 ++ [row]) (S (photos_seq w5)) in
                let w7 := if FACE_LIB_AVAILABLE
                          then with_threads w6 (threads w6 ++ [saved]) else w6 in
                (w7, mk_response 200
                       (JObj [("success", JBool true);
                              ("photo_url", JStr ("/photos/" +:+ filename));
                              ("message", JStr "Photo replaced")]))
            end
        end
  | _, _ => (w, failure 400 "student_id and photo required")
  end.

(** The test of the cache-clearing loop of [api_delete_student], with
    [os.sep = "/"]. *)
Definition key_names_student (student_id : nat) (k : string) : bool :=
  Py.contains ("/" +:+ Py.str student_id +:+ "_") k
  || Py.contains (Py.str student_id +:+ ".") k
  || Py.contains (Py.str student_id +:+ "_") k.

(** [for k in list(ENCODING_CACHE.keys()): if ...: ENCODING_CACHE.pop(k, None)] *)
Definition clear_encoding_cache (student_id : nat) (c : gmap string encoding)
  : gmap string encoding :=
  fold_left (fun acc k => if key_names_student student_id k then delete k acc else acc)
            (map fst (map_to_list c)) c.

Definition api_delete_student (student_id : nat) (w : World) : World * Response :=
  let rows := photo_paths_of w student_id in
  let w1 := with_files w (remove_files rows (files w)) in
  let w2 := delete_photo_rows student_id w1 in
  let w3 := with_attendance w2
              (List.filter (fun a => negb (a_student_id a =? student_id)%nat) (attendance w2))
              (attendance_seq w2) in
  let w4 := with_students w3
              (List.filter (fun s => negb (s_student_id s =? student_id)%nat) (students w3)) in
  let w5 := with_cache w4 (clear_encoding_cache student_id (ENCODING_CACHE w4)) in
  (w5, mk_response 200 (JObj [("success", JBool true); ("message", JStr "Deleted")])).

End Handlers.

(** ** What the specification calls motion *)

(** The number of pixel positions of [a] at which the luminance of [a]
    and [b] differs, in absolute value, by more than [diff_threshold]. *)
Definition changed_pixels (a b : Np.ndarray) (diff_threshold : Z) : Z :=
  Z.of_nat (length (List.filter
                      (fun p : nat * nat =>
                         (diff_threshold <? Z.abs (Np.get a (fst p) (snd p)
                                                   - Np.get b (fst p) (snd p)))%Z)
                      (Np.positions (Np.rows a) (Np.cols a)))).

(** Some consecutive pair of [grays] has more than [threshold_pixels]
    changed pixels. *)
Definition some_pair_moves (grays : list Np.ndarray)
           (threshold_pixels diff_threshold : Z) : Prop :=
  exists i : nat,
    (i + 1 < length grays)%nat /\
    (threshold_pixels
     < changed_pixels (nth i grays empty_array) (nth (i + 1) grays empty_array)
                      diff_threshold)%Z.

(** [grays] are the grayscale arrays the frames decode to. *)
Definition decoded `{E : Env} (frames : list string) (grays : list Np.ndarray) : Prop :=
  Forall2 (fun f g => decode_gray f = Some g) frames grays.

(** All arrays are 8-bit images of one size. *)
Definition same_size_images (grays : list Np.ndarray) : Prop :=
  Forall (fun g => Np.is_uint8 g = true
                   /\ Np.rows g = Np.rows (hd empty_array grays)
                   /\ Np.cols g = Np.cols (hd empty_array grays)) grays.

(** ** What the specification calls the selected gallery entry *)

(** [b] is the first index at which [ds] is minimal. *)
Definition first_minimum (ds : list Q) (b : nat) : Prop :=
  (b < length ds)%nat
  /\ (forall j, (j < length ds)%nat -> (nth b ds 0 <= nth j ds 0)%Q)
  /\ (forall j, (j < b)%nat -> (nth b ds 0 < nth j ds 0)%Q).

(** ** What the specification calls the event of a match *)

(** [row] is the attendance event recorded for the match [m]: the same
    student, status "present", and date, time and creation stamp all
    taken from one reading of the clock. *)
Definition event_of_match `{E : Env} (row : attendance_row) (m : json) : Prop :=
  json_get "student_id" m = Some (JInt (Z.of_nat (a_student_id row)))
  /\ a_status row = "present"
  /\ exists t : nat,
       a_date row = strftime_date (now t)
       /\ a_time_in row = strftime_time (now t)
       /\ a_created_at row = isoformat (now t).

(** ** What the specification calls a successful match *)

(** The matcher's decision for one query face. It reads the gallery and
    the query and nothing else: the gallery entry at the first minimal
    distance, with that distance, when the gallery is not empty and the
    distance is below 1/2. *)
Definition successful_match `{E : Env} (known_encodings : list encoding)
           (known_meta : list meta) (unk : encoding) : option (meta * Q) :=
  match known_encodings with
  | [] => None
  | _ :: _ =>
      let ds := distances_to known_encodings unk in
      let b := Np.argmin ds in
      if Np.Qltb (nth b ds 0%Q) (1 # 2)
      then Some (nth b known_meta no_meta, nth b ds 0%Q)
      else None
  end.

(** The successful matches of the query faces [unknown_encs], in order. *)
Definition successful_matches `{E : Env} (known_encodings : list encoding)
           (known_meta : list meta) (unknown_encs : list encoding) : list (meta * Q) :=
  flat_map (fun unk => match successful_match known_encodings known_meta unk with
                       | Some hit => [hit]
                       | None => []
                       end) unknown_encs.

(** The student of a successful match. *)
Definition hit_student (hit : meta * Q) : nat := snd (fst (fst hit)).

(** The attendance events of the students [sids], one each: ids follow
    the last id [seq0], and each event is stamped with its own reading of
    the clock, starting at reading [clk]. *)
Fixpoint events_from `{E : Env} (seq0 clk : nat) (sids : list nat) : list attendance_row :=
  match sids with
  | [] => []
  | sid :: rest =>
      mk_attendance (S seq0) sid (strftime_date (now clk)) (strftime_time (now clk))
                    "present" (isoformat (now clk))
      :: events_from (S seq0) (S clk) rest
  end.

(** ** A small concrete environment

    Images are short strings: for the grayscale decoder the first
    character gives the size (["s"]: 2 x 2, ["b"]: 32 x 33) and the second
    the luminance of every pixel; for the colour decoder every character
    is a pixel, and an upper-case letter is a face whose encoding is its
    character code. *)

Definition toy_gray (raw : bytes) : option Np.ndarray :=
  match raw with
  | String c (String d _) =>
      let v := Z.of_nat (nat_of_ascii d) in
      if Ascii.eqb c "s" then Some (Np.mk_ndarray 2 2 (repeat v 4))
      else if Ascii.eqb c "b" then Some (Np.mk_ndarray 32 33 (repeat v 1056))
      else None
  | _ => None
  end.

Definition toy_rgb (raw : bytes) : option rgb_image :=
  match raw with
  | EmptyString => None
  | _ => Some [map (fun c => let v := Z.of_nat (nat_of_ascii c) in (v, v, v))
                   (list_ascii_of_string raw)]
  end.

Definition toy_faces (img : rgb_image) : list encoding :=
  flat_map (fun row =>
    flat_map (fun px : Z * Z * Z =>
      let r := fst (fst px) in
      if (65 <=? r)%Z && (r <=? 90)%Z then [[inject_Z r]] else []) row) img.

Definition toy_distance (k u : encoding) : Q :=
  ((hd 0%Q k - hd 0%Q u) * (hd 0%Q k - hd 0%Q u) / 100)%Q.

Definition toy_now (n : nat) : datetime :=
  mk_datetime "2024-05-01" ("09:00:0" +:+ Py.str n) ("2024050109000" +:+ Py.str n)
              ("2024-05-01T09:00:0" +:+ Py.str n).

Definition toy_env : Env := {|
  FACE_LIB_AVAILABLE := true;
  PHOTO_DIR := "/srv/static/photos";
  b64decode := fun s => if String.prefix "!" s then None else Some s;
  Image_open_L := toy_gray;
  Image_open_RGB := toy_rgb;
  load_image_file := toy_rgb;
  face_encodings := toy_faces;
  face_distance := toy_distance;
  now := toy_now
|}.

(** Student 7, enrolled through [api_add_student_with_photo] with roll
    number CS101, so that the photo is stored as [CS101.png]; the file
    shows the face ["A"]. *)
Definition cs101_png : string := "/srv/static/photos/CS101.png".

Definition w0 : World :=
  mk_world [mk_student 7 (Some "CS101") "Asha"]
           [mk_photo 1 7 cs101_png "CS101.png" "2024-04-30T10:00:00"]
           [] 1 0
           {[ cs101_png := "A" ]}
           ∅ 0 [] [].

(** The same school after the gallery has been matched against once:
    the encoding of [CS101.png] is cached. *)
Definition w0_cached : World := with_cache w0 {[ cs101_png := [inject_Z 65] ]}.

(** The probe [65] against a gallery whose second and third entries are
    equally near. *)
Definition toy_gallery : list encoding := [[inject_Z 70]; [inject_Z 66]; [inject_Z 64]].
Definition toy_gallery_meta : list meta :=
  [(1, 7, "a.png"); (2, 8, "b.png"); (3, 9, "c.png")]%nat.

(** A school without any photo. *)
Definition w_no_photos : World :=
  mk_world [mk_student 7 (Some "CS101") "Asha"] [] [] 0 0 ∅ ∅ 0 [] [].

(** Student 7 has already been marked present on 2024-05-01. *)
Definition w0_marked : World :=
  with_attendance w0
    [mk_attendance 1 7 "2024-05-01" "08:00:00" "present" "2024-05-01T08:00:00"] 1.

(** The cache holds an encoding for [CS101.png] that the file no longer
    shows. *)
Definition w0_stale : World := with_cache w0 {[ cs101_png := [inject_Z 90] ]}.

Definition missing_png : string := "/srv/static/photos/missing.png".

(** ** Uploading a first photo *)

(** [filename_exists_in_db] *)
Definition filename_exists_in_db (w : World) (filename : string) : bool :=
  (0 <? length (List.filter (fun p => String.eqb (p_filename p) filename) (photos w)))%nat.

(** [student_has_photo] *)
Definition student_has_photo (w : World) (student_id : nat) : bool :=
  (0 <? length (List.filter (fun p => (p_student_id p =? student_id)%nat) (photos w)))%nat.

(** [os.path.exists(path)] *)
Definition os_path_exists (w : World) (path : string) : bool :=
  match files w !! path with
  | Some _ => true
  | None => false
  end.

Section Upload.
Context `{E : Env}.

(** [api_upload_photo]; its test on [SELECT COUNT( * ) FROM photos WHERE
    student_id=?] is the query of [student_has_photo]. *)
Definition api_upload_photo (data : photo_request) (w : World) : World * Response :=
  match req_student_id data, req_photo data with
  | Some student_id, Some photo_b64 =>
      if (student_id =? 0)%nat || negb (Py.truthy photo_b64) then
        (w, failure 400 "student_id and photo required")
      else
        match find (fun s => (s_student_id s =? student_id)%nat) (students w) with
        | None => (w, failure 404 "student_id not found")
        | Some _ =>
            if student_has_photo w student_id then
              (w, failure 409 "Student already has a photo - upload refused")
            else
              let ts := strftime_stamp (now (clock w)) in
              let w1 := tick w in
              let filename := Py.str student_id +:+ "_" +:+ ts +:+ ".png" in
              let fs_path := photo_path_of filename in
              if os_path_exists w1 fs_path || filename_exists_in_db w1 filename then
                (w1, failure 500 "filename collision")
              else
                match save_base64_image photo_b64 filename w1 with
                | None => (w1, failure 500 "Error saving photo")
                | Some (w2, saved) =>
                    let created_at := isoformat (now (clock w2)) in
                    let w3 := tick w2 in
                    let row := mk_photo (S (photos_seq w3)) student_id saved filename
                                        created_at in
                    let w4 := with_photos w3 (photos w3 ++ [row]) (S (photos_seq w3)) in
                    let w5 := if FACE_LIB_AVAILABLE
                              then with_threads w4 (threads w4 ++ [saved]) else w4 in
                    (w5, mk_response 201
                           (JObj [("success", JBool true);
                                  ("photo_url", JStr ("/photos/" +:+ filename));
                                  ("message", JStr "Photo uploaded")]))
                end
        end
  | _, _ => (w, failure 400 "student_id and photo required")
  end.

End Upload.

(** ** Vocabulary of the further properties *)

(** No student has more than one photo row. *)
Definition at_most_one_photo (w : World) : Prop :=
  forall student_id : nat, (length (photo_paths_of w student_id) <= 1)%nat.

(** [w'] has the students, photos and files of [w]. *)
Definition same_enrolment (w w' : World) : Prop :=
  students w' = students w /\ photos w' = photos w
  /\ photos_seq w' = photos_seq w /\ files w' = files w.

(** The name [api_upload_photo] and [api_replace_photo] give a photo of
    [student_id] stored at the clock reading [ts]. *)
Definition stamped_path `{E : Env} (student_id : nat) (ts : string) : string :=
  photo_path_of (Py.str student_id +:+ "_" +:+ ts +:+ ".png").

(** The gallery row of a photo row. *)
Definition meta_of (r : photo_row) : meta := (p_id r, p_student_id r, p_photo_path r).

(** [j] is a match entry for the photo row [r]: its student and path,
    at a distance below the threshold. *)
Definition entry_of_photo (r : photo_row) (j : json) : Prop :=
  json_get "student_id" j = Some (JInt (Z.of_nat (p_student_id r)))
  /\ json_get "photo_path" j = Some (JStr (p_photo_path r))
  /\ exists d : Q, json_get "distance" j = Some (JNum d) /\ (d < 1 # 2)%Q.

(** The gallery a cache [c] gives for the photo rows [rows]: one entry
    per row whose path has an encoding in [c], in table order. *)
Definition cached_rows (c : gmap string encoding) (rows : list photo_row)
  : list (encoding * meta) :=
  flat_map (fun r => match c !! p_photo_path r with
                     | Some e => [(e, meta_of r)]
                     | None => []
                     end) rows.

(** Two arrays that numpy cannot subtract: in one dimension their
    extents differ and neither is 1. *)
Definition sizes_clash (a b : Np.ndarray) : Prop :=
  (Np.rows a <> Np.rows b /\ Np.rows a <> 1%nat /\ Np.rows b <> 1%nat)
  \/ (Np.cols a <> Np.cols b /\ Np.cols a <> 1%nat /\ Np.cols b <> 1%nat).

(** More of the small concrete environment. *)

(** Students 1 and 11, each with a photo stored by [api_upload_photo],
    both encodings cached. *)
Definition w_two : World :=
  mk_world [mk_student 1 (Some "A1") "Bo"; mk_student 11 (Some "A2") "Cy"]
           [mk_photo 1 1 "/srv/static/photos/1_20240501.png" "1_20240501.png" "t1";
            mk_photo 2 11 "/srv/static/photos/11_20240502.png" "11_20240502.png" "t2"]
           [] 2 0
           {[ "/srv/static/photos/1_20240501.png" := "A";
              "/srv/static/photos/11_20240502.png" := "B" ]}
           {[ "/srv/static/photos/1_20240501.png" := [inject_Z 65];
              "/srv/static/photos/11_20240502.png" := [inject_Z 66] ]}
           0 [] [].

(** Student 7 of [w0] before any photo was stored. *)
Definition w_enrolled : World :=
  mk_world [mk_student 7 (Some "CS101") "Asha"] [] [] 0 0 ∅ ∅ 0 [] [].

(* ===================================================================== *)
(** * Part II: properties                                                *)
(* ===================================================================== *)

(** ** Lists *)

Lemma length_filter_map {A B : Type} (f : A -> B) (p : B -> bool) (l : list A) :
  length (List.filter p (map f l)) = length (List.filter (fun x => p (f x)) l).
Proof.
  induction l as [|x l IH]; simpl; [reflexivity|].
  destruct (p (f x)); simpl; now rewrite IH.
Qed.

Lemma filter_none {A : Type} (p : A -> bool) (l : list A) :
  (forall x, In x l -> p x = false) -> List.filter p l = [].
Proof.
  induction l as [|x l IH]; intros H; simpl; [reflexivity|].
  rewrite (H x) by now left. apply IH. intros y Hy. apply H. now right.
Qed.

(** ** numpy arithmetic on 8-bit images *)

Lemma wrap16_small (z : Z) : (-32768 <= z < 32768)%Z -> Np.wrap16 z = z.
Proof. intros H. unfold Np.wrap16. rewrite Z.mod_small; lia. Qed.

Lemma get_astype_int16 (a : Np.ndarray) (i j : nat) :
  Np.get (Np.astype_int16 a) i j = Np.wrap16 (Np.get a i j).
Proof.
  unfold Np.get, Np.astype_int16; simpl.
  change 0%Z with (Np.wrap16 0) at 1. apply map_nth.
Qed.

Lemma get_uint8 (a : Np.ndarray) (i j : nat) :
  Np.is_uint8 a = true -> (0 <= Np.get a i j <= 255)%Z.
Proof.
  unfold Np.is_uint8, Np.get. intros H.
  destruct (nth_in_or_default (i * Np.cols a + j) (Np.data a) 0%Z) as [Hin | ->]; [|lia].
  rewrite forallb_forall in H. apply H in Hin.
  apply andb_true_iff in Hin as [H1 H2].
  apply Z.leb_le in H1. apply Z.leb_le in H2. lia.
Qed.

Lemma bidx_lt (m i : nat) : (i < m)%nat -> Np.bidx m i = i.
Proof.
  intros H. unfold Np.bidx. destruct (m =? 1)%nat eqn:Hm; [|reflexivity].
  apply Nat.eqb_eq in Hm. lia.
Qed.

Lemma bdim_same (m : nat) : Np.bdim m m = Some m.
Proof. unfold Np.bdim. now rewrite Nat.eqb_refl. Qed.

Lemma in_positions (h w : nat) (p : nat * nat) :
  In p (Np.positions h w) -> (fst p < h)%nat /\ (snd p < w)%nat.
Proof.
  destruct p as [i j]. unfold Np.positions. rewrite in_prod_iff, !in_seq. simpl. lia.
Qed.

(** ** The liveness check *)

Section LivenessFacts.
Context `{E : Env}.

Lemma gray_loop_undecodable (frames : list string) (acc : list Np.ndarray) :
  (exists f, In f frames /\ decode_gray f = None) -> gray_loop frames acc = None.
Proof.
  revert acc. induction frames as [|b rest IH]; intros acc [f [Hin Hf]].
  - destruct Hin.
  - simpl. destruct Hin as [-> | Hin].
    + now rewrite Hf.
    + destruct (decode_gray b); [apply IH; eauto | reflexivity].
Qed.

Lemma gray_loop_decoded (frames : list string) (grays acc : list Np.ndarray) :
  decoded frames grays -> gray_loop frames acc = Some (acc ++ grays).
Proof.
  intros H. revert acc. induction H as [|f g fs gs Hfg _ IH]; intros acc; simpl.
  - now rewrite app_nil_r.
  - rewrite Hfg, IH. now rewrite <- app_assoc.
Qed.

(** On two 8-bit images of one size, the count the loop computes through
    int16 arithmetic is the number of changed pixels: nothing wraps. *)
Lemma pair_count_same_size (a b : Np.ndarray) (dt : Z) :
  Np.is_uint8 a = true -> Np.is_uint8 b = true ->
  Np.rows b = Np.rows a -> Np.cols b = Np.cols a ->
  pair_count a b dt = Some (changed_pixels a b dt).
Proof.
  intros Ha Hb Hr Hc. unfold pair_count, Np.sub. cbn [Np.rows Np.cols Np.astype_int16].
  rewrite Hr, Hc, !bdim_same. f_equal.
  unfold Np.count_gt, changed_pixels, Np.abs. cbn [Np.data].
  rewrite !length_filter_map. do 2 f_equal.
  apply filter_ext_in. intros p Hp. apply in_positions in Hp as [Hi Hj].
  rewrite !bidx_lt by assumption. rewrite !get_astype_int16.
  pose proof (get_uint8 a (fst p) (snd p) Ha) as Hx.
  pose proof (get_uint8 b (fst p) (snd p) Hb) as Hy.
  rewrite (wrap16_small (Np.get a _ _)) by lia.
  rewrite (wrap16_small (Np.get b _ _)) by lia.
  rewrite (wrap16_small (_ - _)) by lia.
  rewrite wrap16_small by lia. reflexivity.
Qed.

Lemma pair_loop_counts (grays : list Np.ndarray) (indices : list nat) (tp dt : Z) :
  (forall i, In i indices ->
     pair_count (nth i grays empty_array) (nth (i + 1) grays empty_array) dt
     = Some (changed_pixels (nth i grays empty_array) (nth (i + 1) grays empty_array) dt)) ->
  pair_loop grays indices tp dt
  = Returns (existsb (fun i => (tp <? changed_pixels (nth i grays empty_array)
                                        (nth (i + 1) grays empty_array) dt)%Z) indices).
Proof.
  induction indices as [|i rest IH]; intros H; simpl; [reflexivity|].
  rewrite (H i) by now left.
  destruct (tp <? _)%Z; [reflexivity|]. simpl. apply IH. intros j Hj. apply H. now right.
Qed.

Lemma frames_have_motion_counts (frames : list string) (grays : list Np.ndarray) (tp dt : Z) :
  (2 <= length frames)%nat -> decoded frames grays -> same_size_images grays ->
  frames_have_motion frames tp dt
  = Returns (existsb (fun i => (tp <? changed_pixels (nth i grays empty_array)
                                        (nth (i + 1) grays empty_array) dt)%Z)
                     (seq 0 (length grays - 1))).
Proof.
  intros Hlen Hdec Hs. unfold frames_have_motion.
  assert ((length frames =? 0)%nat || (length frames <? 2)%nat = false) as ->.
  { apply orb_false_iff. split; [apply Nat.eqb_neq | apply Nat.ltb_ge]; lia. }
  rewrite (gray_loop_decoded frames grays [] Hdec). simpl app.
  apply pair_loop_counts. intros i Hi. apply in_seq in Hi.
  unfold same_size_images in Hs. rewrite List.Forall_forall in Hs.
  destruct (Hs (nth i grays empty_array)) as (Ha & Har & Hac); [apply nth_In; lia|].
  destruct (Hs (nth (i + 1) grays empty_array)) as (Hb & Hbr & Hbc); [apply nth_In; lia|].
  apply pair_count_same_size; congruence.
Qed.

End LivenessFacts.

(** C3. The liveness check fails closed: whatever the thresholds, a frame
    list with fewer than two frames (the empty list included), or one in
    which some frame does not decode, makes [frames_have_motion] return
    [False]; it neither returns [True] nor raises. *)
Theorem frames_have_motion_fails_closed `{E : Env}
        (frames : list string) (tp dt : Z) :
  (length frames < 2)%nat \/ (exists f, In f frames /\ decode_gray f = None) ->
  frames_have_motion frames tp dt = Returns false.
Proof.
  intros [Hlen | Hbad]; unfold frames_have_motion.
  - assert ((length frames <? 2)%nat = true) as -> by (apply Nat.ltb_lt; lia).
    now rewrite orb_true_r.
  - rewrite (gray_loop_undecodable _ _ Hbad). now destruct (_ || _).
Qed.

Lemma frames_have_motion_fails_closed_witness :
  @frames_have_motion toy_env ["b0A"] 1000 30 = Returns false
  /\ @frames_have_motion toy_env ["b0A"; "!"; "bzA"] 1000 30 = Returns false.
Proof.
  split.
  - apply (@frames_have_motion_fails_closed toy_env). left. simpl. lia.
  - apply (@frames_have_motion_fails_closed toy_env). right.
    exists "!". split; [simpl; tauto | reflexivity].
Defined.

(** C4, as the code has it. For at least two decodable frames that are
    8-bit images of one size, [frames_have_motion] returns a boolean, and
    it returns [True] exactly when some consecutive pair has more than
    [threshold_pixels] pixels whose absolute luminance difference exceeds
    [diff_threshold]; with non-negative thresholds (the defaults are 1000
    and 30) two identical frames give [False]. *)
Theorem frames_have_motion_same_size `{E : Env}
        (frames : list string) (grays : list Np.ndarray) (tp dt : Z) :
  (2 <= length frames)%nat -> decoded frames grays -> same_size_images grays ->
  (exists b, frames_have_motion frames tp dt = Returns b)
  /\ (frames_have_motion frames tp dt = Returns true <-> some_pair_moves grays tp dt)
  /\ (forall f, frames = [f; f] -> (0 <= tp)%Z -> (0 <= dt)%Z ->
        frames_have_motion frames tp dt = Returns false).
Proof.
  intros Hlen Hdec Hs.
  pose proof (frames_have_motion_counts frames grays tp dt Hlen Hdec Hs) as Heq.
  assert (Hiff : frames_have_motion frames tp dt = Returns true
                 <-> some_pair_moves grays tp dt).
  { rewrite Heq. unfold some_pair_moves. split.
    - intros H. injection H as H. apply existsb_exists in H as (i & Hi & Hc).
      apply in_seq in Hi. apply Z.ltb_lt in Hc. exists i. split; [lia | exact Hc].
    - intros (i & Hi & Hc). f_equal. apply existsb_exists. exists i. split.
      + apply in_seq. lia.
      + now apply Z.ltb_lt. }
  split; [eauto | split; [exact Hiff |]].
  intros f -> Htp Hdt. rewrite Heq. f_equal.
  inversion Hdec as [|? g ? gs Hf Hrest]; subst.
  inversion Hrest as [|? g' ? gs' Hf' Hrest']; subst.
  inversion Hrest'; subst.
  assert (g' = g) as -> by congruence.
  simpl. rewrite orb_false_r. apply Z.ltb_ge.
  unfold changed_pixels. rewrite filter_none; [simpl; lia|].
  intros p _. rewrite Z.sub_diag. simpl. apply Z.ltb_ge. exact Hdt.
Qed.

Lemma frames_have_motion_same_size_witness :
  @frames_have_motion toy_env ["s0"; "sz"] 1 30 = Returns true
  /\ @frames_have_motion toy_env ["s0"; "s0"] 1 30 = Returns false.
Proof.
  split.
  - apply (proj1 (proj2 (@frames_have_motion_same_size toy_env ["s0"; "sz"]
                           [Np.mk_ndarray 2 2 (repeat 48%Z 4);
                            Np.mk_ndarray 2 2 (repeat 122%Z 4)] 1 30
                           ltac:(simpl; lia)
                           ltac:(repeat (constructor; [reflexivity|]); constructor)
                           ltac:(repeat (constructor; [repeat split; reflexivity|]);
                                 constructor)))).
    exists 0%nat. split; [simpl; lia | vm_compute; reflexivity].
  - apply (proj2 (proj2 (@frames_have_motion_same_size toy_env ["s0"; "s0"]
                           [Np.mk_ndarray 2 2 (repeat 48%Z 4);
                            Np.mk_ndarray 2 2 (repeat 48%Z 4)] 1 30
                           ltac:(simpl; lia)
                           ltac:(repeat (constructor; [reflexivity|]); constructor)
                           ltac:(repeat (constructor; [repeat split; reflexivity|]);
                                 constructor))) "s0");
      [reflexivity | lia | lia].
Defined.

(** C4 as the specification words it fails once frame sizes differ.
    Three decodable frames: a 2 x 2 image, then two 32 x 33 images that
    differ by 74 at each of their 1056 pixels.  The last pair moves, yet
    the check does not return [True]: subtracting the first pair raises. *)
Lemma motion_missed_after_size_change :
  ~ (forall grays,
       @decoded toy_env ["s0"; "b0"; "bz"] grays ->
       (@frames_have_motion toy_env ["s0"; "b0"; "bz"] 1000 30 = Returns true
        <-> some_pair_moves grays 1000 30)).
Proof.
  intros H.
  specialize (H [Np.mk_ndarray 2 2 (repeat 48%Z 4);
                 Np.mk_ndarray 32 33 (repeat 48%Z 1056);
                 Np.mk_ndarray 32 33 (repeat 122%Z 1056)]).
  destruct H as [_ H].
  - repeat (constructor; [vm_compute; reflexivity|]). constructor.
  - assert (Hr : @frames_have_motion toy_env ["s0"; "b0"; "bz"] 1000 30 = Raises)
      by (vm_compute; reflexivity).
    rewrite Hr in H. discriminate H.
    exists 1%nat. split; [simpl; lia | vm_compute; reflexivity].
Qed.

(** ** The matcher *)

Lemma Qltb_true (x y : Q) : Np.Qltb x y = true -> (x < y)%Q.
Proof.
  unfold Np.Qltb. intros H. apply negb_true_iff in H.
  apply Qnot_le_lt. intros Hle. apply Qle_bool_iff in Hle. congruence.
Qed.

Lemma Qltb_false (x y : Q) : Np.Qltb x y = false -> (y <= x)%Q.
Proof.
  unfold Np.Qltb. intros H. apply negb_false_iff in H. now apply Qle_bool_iff.
Qed.

(** The scan of [np.argmin]: if [best] at [bi] is the first minimum of
    the part already seen, the result is the first minimum of the whole. *)
Lemma argmin_from_first_minimum (l pre : list Q) (bi : nat) (best : Q) :
  (bi < length pre)%nat -> nth bi pre 0%Q = best ->
  (forall j, (j < length pre)%nat -> (best <= nth j pre 0)%Q) ->
  (forall j, (j < bi)%nat -> (best < nth j pre 0)%Q) ->
  first_minimum (pre ++ l) (Np.argmin_from bi best (length pre) l).
Proof.
  revert pre bi best.
  induction l as [|x r IH]; intros pre bi best Hbi Hnth Hmin Hfirst; simpl.
  - rewrite app_nil_r. subst best. repeat split; auto.
  - replace (pre ++ x :: r) with ((pre ++ [x]) ++ r) by (now rewrite <- app_assoc).
    replace (S (length pre)) with (length (pre ++ [x])) by (rewrite length_app; simpl; lia).
    destruct (Np.Qltb x best) eqn:Hx.
    + apply Qltb_true in Hx.
      replace (length pre) with (length pre + 0)%nat at 1 by lia.
      apply IH.
      * rewrite length_app; simpl; lia.
      * rewrite Nat.add_0_r. apply nth_middle.
      * intros j Hj. rewrite length_app in Hj; simpl in Hj.
        destruct (Nat.eq_dec j (length pre)) as [-> | Hne].
        -- rewrite nth_middle. apply Qle_refl.
        -- rewrite app_nth1 by lia. apply Qlt_le_weak.
           eapply Qlt_le_trans; [exact Hx | apply Hmin; lia].
      * intros j Hj. rewrite Nat.add_0_r in Hj. rewrite app_nth1 by lia.
        eapply Qlt_le_trans; [exact Hx | apply Hmin; lia].
    + apply Qltb_false in Hx. apply IH.
      * rewrite length_app; simpl; lia.
      * rewrite app_nth1 by lia. exact Hnth.
      * intros j Hj. rewrite length_app in Hj; simpl in Hj.
        destruct (Nat.eq_dec j (length pre)) as [-> | Hne].
        -- now rewrite nth_middle.
        -- rewrite app_nth1 by lia. apply Hmin. lia.
      * intros j Hj. rewrite app_nth1 by lia. now apply Hfirst.
Qed.

Lemma argmin_first_minimum (ds : list Q) :
  ds <> [] -> first_minimum ds (Np.argmin ds).
Proof.
  destruct ds as [|x r]; [congruence|]. intros _. unfold Np.argmin.
  apply (argmin_from_first_minimum r [x] 0 x); simpl; try lia; try reflexivity.
  - intros j Hj. assert (j = 0%nat) as -> by lia. apply Qle_refl.
Qed.

(** There is only one first minimum. *)
Lemma first_minimum_unique (ds : list Q) (b1 b2 : nat) :
  first_minimum ds b1 -> first_minimum ds b2 -> b1 = b2.
Proof.
  intros (H1 & M1 & F1) (H2 & M2 & F2).
  destruct (Nat.lt_trichotomy b1 b2) as [Hlt | [Heq | Hgt]]; [exfalso | exact Heq | exfalso].
  - apply (Qlt_not_le _ _ (F2 b1 Hlt)). now apply M1.
  - apply (Qlt_not_le _ _ (F1 b2 Hgt)). now apply M2.
Qed.

(** C1. Against a non-empty gallery, one iteration of the matching loop
    picks the first index at which the distance to the query is minimal;
    when that distance is below 1/2 it records attendance and appends a
    match carrying the student id of that entry and the distance, and
    when it is not below 1/2 it emits nothing and changes nothing. *)
Theorem matcher_selects_first_minimum `{E : Env}
        (known_encodings : list encoding) (known_meta : list meta)
        (unk : encoding) (w : World) (matches : list json) :
  known_encodings <> [] ->
  exists (b : nat) (d : Q) (m : meta),
    first_minimum (distances_to known_encodings unk) b
    /\ d = nth b (distances_to known_encodings unk) 0%Q
    /\ m = nth b known_meta no_meta
    /\ ((d < 1 # 2)%Q ->
        match_one known_encodings known_meta unk (w, matches)
        = (insert_attendance (snd (fst m)) w, matches ++ [match_entry w m d])
        /\ json_get "student_id" (match_entry w m d)
           = Some (JInt (Z.of_nat (snd (fst m))))
        /\ json_get "distance" (match_entry w m d) = Some (JNum d))
    /\ (~ (d < 1 # 2)%Q ->
        match_one known_encodings known_meta unk (w, matches) = (w, matches)).
Proof.
  intros Hne. exists (Np.argmin (distances_to known_encodings unk)).
  eexists. eexists.
  assert (Hlen : (length known_encodings =? 0)%nat = false).
  { apply Nat.eqb_neq. destruct known_encodings; simpl; congruence. }
  split; [|split; [reflexivity | split; [reflexivity | split]]].
  - apply argmin_first_minimum. unfold distances_to.
    destruct known_encodings; simpl; congruence.
  - intros Hlt. unfold match_one. rewrite Hlen.
    destruct (Np.Qltb _ _) eqn:Hq.
    + split; [reflexivity|].
      destruct (nth _ known_meta _) as [[pid sid] ppath]. split; reflexivity.
    + apply Qltb_false in Hq. exfalso. exact (Qlt_not_le _ _ Hlt Hq).
  - intros Hge. unfold match_one. rewrite Hlen.
    destruct (Np.Qltb _ _) eqn:Hq; [|reflexivity].
    apply Qltb_true in Hq. contradiction.
Qed.

Example argmin_keeps_the_first_of_equal_minima :
  Np.argmin (@distances_to toy_env toy_gallery [inject_Z 65]) = 1%nat.
Proof. reflexivity. Qed.

Lemma matcher_selects_first_minimum_witness :
  exists (b : nat) (d : Q) (m : meta),
    first_minimum (@distances_to toy_env toy_gallery [inject_Z 65]) b
    /\ d = nth b (@distances_to toy_env toy_gallery [inject_Z 65]) 0%Q
    /\ m = nth b toy_gallery_meta no_meta
    /\ @match_one toy_env toy_gallery toy_gallery_meta [inject_Z 65] (w0, [])
       = (@insert_attendance toy_env (snd (fst m)) w0, [] ++ [match_entry w0 m d]).
Proof.
  destruct (@matcher_selects_first_minimum toy_env toy_gallery toy_gallery_meta
              [inject_Z 65] w0 [] ltac:(discriminate))
    as (b & d & m & Hfirst & Hd & Hm & Hbelow & _).
  exists b, d, m. repeat split; try assumption; try apply Hfirst.
  apply Hbelow. subst d.
  assert (b = 1%nat) as ->.
  { apply (first_minimum_unique _ _ _ Hfirst).
    change 1%nat with (Np.argmin (@distances_to toy_env toy_gallery [inject_Z 65])).
    apply argmin_first_minimum. discriminate. }
  reflexivity.
Defined.

(** ** The attendance handler *)

Section MarkAttendanceFacts.
Context `{E : Env}.

Lemma compute_keeps_attendance (path : string) (w : World) :
  attendance (fst (compute_face_encoding_from_file path w)) = attendance w.
Proof.
  unfold compute_face_encoding_from_file.
  destruct (negb FACE_LIB_AVAILABLE); [reflexivity|].
  destruct (ENCODING_CACHE w !! path); [reflexivity|].
  destruct (extract w path) as [[|enc rest]|]; reflexivity.
Qed.

Lemma gallery_loop_keeps_attendance (rows : list photo_row) (w : World)
      (ke : list encoding) (km : list meta) :
  attendance (fst (fst (gallery_loop rows w ke km))) = attendance w.
Proof.
  revert w ke km. induction rows as [|r rest IH]; intros w ke km; simpl; [reflexivity|].
  pose proof (compute_keeps_attendance (p_photo_path r) w) as Hc.
  destruct (compute_face_encoding_from_file (p_photo_path r) w) as [w1 [e|]];
    simpl in Hc; rewrite IH; exact Hc.
Qed.

(** [known_encodings] and [known_meta] grow together. *)
Lemma gallery_loop_aligned (rows : list photo_row) (w : World)
      (ke : list encoding) (km : list meta) :
  length km = length ke ->
  length (snd (gallery_loop rows w ke km)) = length (snd (fst (gallery_loop rows w ke km))).
Proof.
  revert w ke km. induction rows as [|r rest IH]; intros w ke km Hl; simpl; [exact Hl|].
  destruct (compute_face_encoding_from_file (p_photo_path r) w) as [w1 [e|]].
  - apply IH. rewrite !length_app. simpl. lia.
  - now apply IH.
Qed.

Lemma match_one_empty_gallery (km : list meta) (unk : encoding) (st : World * list json) :
  match_one [] km unk st = st.
Proof. destruct st as [w ms]. reflexivity. Qed.

Lemma match_loop_empty_gallery (km : list meta) (us : list encoding)
      (st : World * list json) :
  match_loop [] km us st = st.
Proof.
  revert st. induction us as [|u rest IH]; intros st; simpl; [reflexivity|].
  now rewrite match_one_empty_gallery.
Qed.

Lemma insert_attendance_event (w : World) (m : meta) (d : Q) :
  exists row,
    attendance (insert_attendance (snd (fst m)) w) = attendance w ++ [row]
    /\ event_of_match row (match_entry w m d).
Proof.
  destruct m as [[pid sid] ppath]. eexists. split; [reflexivity|].
  split; [reflexivity | split; [reflexivity|]].
  exists (clock w). repeat split.
Qed.

Lemma match_one_events (ke : list encoding) (km : list meta) (unk : encoding)
      (w : World) (ms : list json) :
  exists rows extra,
    attendance (fst (match_one ke km unk (w, ms))) = attendance w ++ rows
    /\ snd (match_one ke km unk (w, ms)) = ms ++ extra
    /\ Forall2 event_of_match rows extra.
Proof.
  unfold match_one.
  destruct (length ke =? 0)%nat.
  { exists [], []. simpl. rewrite !app_nil_r. repeat split. constructor. }
  destruct (Np.Qltb _ _).
  - destruct (insert_attendance_event w
                (nth (Np.argmin (distances_to ke unk)) km no_meta)
                (nth (Np.argmin (distances_to ke unk)) (distances_to ke unk) 0%Q))
      as (row & Hrow & Hev).
    exists [row], [match_entry w (nth (Np.argmin (distances_to ke unk)) km no_meta)
                     (nth (Np.argmin (distances_to ke unk)) (distances_to ke unk) 0%Q)].
    simpl. repeat split; [exact Hrow | constructor; [exact Hev | constructor]].
  - exists [], []. simpl. rewrite !app_nil_r. repeat split. constructor.
Qed.

Lemma match_loop_events (ke : list encoding) (km : list meta) (us : list encoding)
      (w : World) (ms : list json) :
  exists rows extra,
    attendance (fst (match_loop ke km us (w, ms))) = attendance w ++ rows
    /\ snd (match_loop ke km us (w, ms)) = ms ++ extra
    /\ Forall2 event_of_match rows extra.
Proof.
  revert w ms. induction us as [|u rest IH]; intros w ms; cbn [match_loop].
  - exists [], []. simpl. rewrite !app_nil_r. repeat split. constructor.
  - destruct (match_one_events ke km u w ms) as (r1 & e1 & Ha1 & Hm1 & HF1).
    destruct (match_one ke km u (w, ms)) as [w1 ms1]. simpl in Ha1, Hm1.
    destruct (IH w1 ms1) as (r2 & e2 & Ha2 & Hm2 & HF2).
    exists (r1 ++ r2), (e1 ++ e2). rewrite Ha2, Hm2, Ha1, Hm1, <- !app_assoc.
    repeat split. now apply Forall2_app.
Qed.

(** The early returns of [select_image] carry no ["matched"] field. *)
Lemma select_image_early_return (data : mark_request) (resp : Response) :
  select_image data = inl resp -> json_get "matched" (body resp) = None.
Proof.
  unfold select_image. intros H.
  repeat match type of H with
         | context [match ?x with _ => _ end] => destruct x
         end; inversion H; reflexivity.
Qed.

End MarkAttendanceFacts.

(** C5. With an empty gallery the matcher yields nothing for any query,
    and a request that reaches recognition while no enrolled photo yields
    an encoding is answered with status 200, [success = true] and an empty
    [matched] list, without recording attendance. *)
Theorem empty_gallery_no_result `{E : Env} :
  (forall (km : list meta) (unk : encoding) (st : World * list json),
      match_one [] km unk st = st)
  /\ (forall (data : mark_request) (w : World) (pil_img : rgb_image) (checked : bool),
        FACE_LIB_AVAILABLE = true ->
        select_image data = inr (pil_img, checked) ->
        snd (fst (gallery_loop (photos w) w [] [])) = [] ->
        status (snd (api_mark_attendance data w)) = 200%nat
        /\ json_get "success" (body (snd (api_mark_attendance data w))) = Some (JBool true)
        /\ json_get "matched" (body (snd (api_mark_attendance data w))) = Some (JList [])
        /\ attendance (fst (api_mark_attendance data w)) = attendance w).
Proof.
  split; [apply match_one_empty_gallery|].
  intros data w pil_img checked Hlib Hsel Hgal.
  unfold api_mark_attendance. rewrite Hlib, Hsel. simpl negb. cbv iota.
  unfold recognise.
  destruct (compute_face_encodings_from_pil pil_img) as [|u us]; [repeat split|].
  pose proof (gallery_loop_keeps_attendance (photos w) w [] []) as Hatt.
  destruct (gallery_loop (photos w) w [] []) as [[w1 ke] km]. simpl in Hgal, Hatt.
  subst ke. rewrite match_loop_empty_gallery. simpl. repeat split. exact Hatt.
Qed.

Lemma empty_gallery_no_result_witness :
  status (snd (@api_mark_attendance toy_env (mk_mark_request None (Some "sA")) w_no_photos))
  = 200%nat
  /\ json_get "success"
       (body (snd (@api_mark_attendance toy_env (mk_mark_request None (Some "sA")) w_no_photos)))
     = Some (JBool true)
  /\ json_get "matched"
       (body (snd (@api_mark_attendance toy_env (mk_mark_request None (Some "sA")) w_no_photos)))
     = Some (JList [])
  /\ attendance (fst (@api_mark_attendance toy_env (mk_mark_request None (Some "sA")) w_no_photos))
     = attendance w_no_photos.
Proof.
  apply (proj2 (@empty_gallery_no_result toy_env)
               (mk_mark_request None (Some "sA")) w_no_photos
               [[(115, 115, 115); (65, 65, 65)]]%Z false);
    reflexivity.
Defined.

(** The rows a request appends answer, one by one and in order, to the
    entries of its [matched] list, and every earlier row is kept. *)
Lemma added_rows_follow_matched `{E : Env} (data : mark_request) (w : World)
      (ms : list json) :
  json_get "matched" (body (snd (api_mark_attendance data w))) = Some (JList ms) ->
  exists rows : list attendance_row,
    attendance (fst (api_mark_attendance data w)) = attendance w ++ rows
    /\ Forall2 event_of_match rows ms.
Proof.
  unfold api_mark_attendance. intros H.
  destruct (negb FACE_LIB_AVAILABLE); [discriminate H|].
  destruct (select_image data) as [resp | [pil_img checked]] eqn:Hsel.
  { simpl in H. rewrite (select_image_early_return data resp Hsel) in H. discriminate H. }
  unfold recognise in *.
  destruct (compute_face_encodings_from_pil pil_img) as [|u us].
  { simpl in H. injection H as <-. exists []. simpl. rewrite app_nil_r. split; constructor. }
  pose proof (gallery_loop_keeps_attendance (photos w) w [] []) as Hatt.
  destruct (gallery_loop (photos w) w [] []) as [[w1 ke] km]. simpl in Hatt.
  destruct (match_loop_events ke km (u :: us) w1 []) as (rows & extra & Ha & Hm & HF).
  destruct (match_loop ke km (u :: us) (w1, [])) as [w2 matches].
  simpl in Ha, Hm, H |- *. injection H as <-. subst matches.
  exists rows. rewrite Ha, Hatt. split; [reflexivity | exact HF].
Qed.

(** Marking student 7, already present on 2024-05-01, once more leaves
    the student with two events of that date. *)
Example second_event_on_the_same_day :
  map (fun r => (a_student_id r, a_date r))
      (attendance (fst (@api_mark_attendance toy_env
                          (mk_mark_request None (Some "sA")) w0_marked)))
  = [(7%nat, "2024-05-01"); (7%nat, "2024-05-01")].
Proof. vm_compute. reflexivity. Qed.

Lemma usable_frames_too_few (fs : list string) :
  (length fs < 2)%nat -> usable_frames (Some fs) = None.
Proof.
  intros H. unfold usable_frames.
  assert ((2 <=? length fs)%nat = false) as -> by (apply Nat.leb_gt; lia).
  now rewrite andb_false_r.
Qed.

Lemma usable_frames_enough (fs : list string) :
  (2 <= length fs)%nat -> usable_frames (Some fs) = Some fs.
Proof.
  intros H. unfold usable_frames.
  assert ((2 <=? length fs)%nat = true) as -> by (apply Nat.leb_le; lia).
  assert ((length fs =? 0)%nat = false) as -> by (apply Nat.eqb_neq; lia).
  reflexivity.
Qed.

(** C8, as the code has it. A [frames] list with fewer than two entries
    is ignored: the handler answers exactly as it does when [frames] is
    absent, so the liveness check is not run; without a non-empty [image]
    the answer is the 400 rejection that asks for frames or an image, and
    nothing changes. *)
Theorem too_few_frames_are_ignored `{E : Env}
        (fs : list string) (img : option string) (w : World) :
  (length fs < 2)%nat ->
  api_mark_attendance (mk_mark_request (Some fs) img) w
  = api_mark_attendance (mk_mark_request None img) w
  /\ (FACE_LIB_AVAILABLE = true -> img = None \/ img = Some "" ->
      api_mark_attendance (mk_mark_request (Some fs) img) w = (w, provide_input_response)).
Proof.
  intros Hlen.
  assert (Hsel : select_image (mk_mark_request (Some fs) img)
                 = select_image (mk_mark_request None img)).
  { unfold select_image. simpl frames. now rewrite usable_frames_too_few. }
  split.
  - unfold api_mark_attendance. now rewrite Hsel.
  - intros Hlib Himg. unfold api_mark_attendance. rewrite Hlib, Hsel. simpl negb.
    destruct Himg as [-> | ->]; reflexivity.
Qed.

Lemma too_few_frames_are_ignored_witness :
  @api_mark_attendance toy_env (mk_mark_request (Some ["b0A"]) None) w0
  = @api_mark_attendance toy_env (mk_mark_request None None) w0
  /\ @api_mark_attendance toy_env (mk_mark_request (Some ["b0A"]) None) w0
     = (w0, provide_input_response).
Proof.
  destruct (@too_few_frames_are_ignored toy_env ["b0A"] None w0 ltac:(simpl; lia))
    as [Hsame Hreject].
  split; [exact Hsame | apply Hreject; [reflexivity | left; reflexivity]].
Defined.

(** C8 as the specification words it fails: a request whose only content
    is a single frame is not answered with the not-live result; it gets
    the same generic rejection as a request with no input at all. *)
Lemma single_frame_gets_generic_rejection :
  ~ (snd (@api_mark_attendance toy_env (mk_mark_request (Some ["b0A"]) None) w0)
     = not_live_response
     /\ snd (@api_mark_attendance toy_env (mk_mark_request (Some ["b0A"]) None) w0)
        <> snd (@api_mark_attendance toy_env (mk_mark_request None None) w0)).
Proof.
  intros [_ H]. apply H. vm_compute. reflexivity.
Qed.

(** Nor is a single frame treated as not live when an image comes with
    it: the image is matched and attendance is recorded, unchecked. *)
Example single_frame_with_image_is_matched :
  let r := @api_mark_attendance toy_env (mk_mark_request (Some ["b0A"]) (Some "sA")) w0 in
  status (snd r) = 200%nat
  /\ json_get "liveness_checked" (body (snd r)) = Some (JBool false)
  /\ length (attendance (fst r)) = 1%nat.
Proof. vm_compute. repeat split. Qed.

(** C9, where the code falls short of it. When the submitted image shows
    no face the handler returns early with [success = true] and a body
    that has no [liveness_checked] field, whether or not liveness was
    evaluated. *)
Theorem no_faces_response_omits_liveness_flag `{E : Env}
        (data : mark_request) (w : World) (pil_img : rgb_image) (checked : bool) :
  FACE_LIB_AVAILABLE = true ->
  select_image data = inr (pil_img, checked) ->
  face_encodings pil_img = [] ->
  api_mark_attendance data w = (w, no_faces_response)
  /\ json_get "success" (body no_faces_response) = Some (JBool true)
  /\ json_get "liveness_checked" (body no_faces_response) = None.
Proof.
  intros Hlib Hsel Hnone. unfold api_mark_attendance, recognise,
    compute_face_encodings_from_pil.
  rewrite Hlib, Hsel. simpl negb. cbv iota. rewrite Hnone. repeat split.
Qed.

Lemma no_faces_response_omits_liveness_flag_witness :
  @api_mark_attendance toy_env (mk_mark_request (Some ["b0"; "bz"]) None) w0
  = (w0, no_faces_response)
  /\ json_get "success" (body no_faces_response) = Some (JBool true)
  /\ json_get "liveness_checked" (body no_faces_response) = None.
Proof.
  apply (@no_faces_response_omits_liveness_flag toy_env
           (mk_mark_request (Some ["b0"; "bz"]) None) w0
           [[(98, 98, 98); (122, 122, 122)]]%Z true);
    vm_compute; reflexivity.
Defined.

(** The sibling path: the same request with a face in the middle frame
    is answered with the flag. *)
Example matched_response_has_liveness_flag :
  json_get "liveness_checked"
    (body (snd (@api_mark_attendance toy_env (mk_mark_request (Some ["b0A"; "bzA"]) None) w0)))
  = Some (JBool true).
Proof. vm_compute. reflexivity. Qed.

(** C10. When at least two frames are supplied and motion is detected,
    the handler recognises the frame at index [len(frames) // 2] and no
    other: its outcome is that of recognising this one frame with
    [liveness_checked = true], so two frame lists with the same middle
    frame give the same outcome whatever their other frames show. *)
Theorem matching_uses_middle_frame_only `{E : Env}
        (fs : list string) (img : option string) (w : World) :
  FACE_LIB_AVAILABLE = true ->
  (2 <= length fs)%nat ->
  frames_have_motion_default fs = Returns true ->
  api_mark_attendance (mk_mark_request (Some fs) img) w
  = match decode_rgb (nth (Nat.div (length fs) 2) fs "") with
    | Some pil_img => recognise pil_img true w
    | None => (w, liveness_failed_response)
    end
  /\ (forall (fs' : list string) (img' : option string),
        (2 <= length fs')%nat ->
        frames_have_motion_default fs' = Returns true ->
        nth (Nat.div (length fs') 2) fs' "" = nth (Nat.div (length fs) 2) fs "" ->
        api_mark_attendance (mk_mark_request (Some fs') img') w
        = api_mark_attendance (mk_mark_request (Some fs) img) w).
Proof.
  intros Hlib.
  assert (Hmid : forall l i, (2 <= length l)%nat ->
                   frames_have_motion_default l = Returns true ->
                   api_mark_attendance (mk_mark_request (Some l) i) w
                   = match decode_rgb (nth (Nat.div (length l) 2) l "") with
                     | Some pil_img => recognise pil_img true w
                     | None => (w, liveness_failed_response)
                     end).
  { intros l i Hl Hm. unfold api_mark_attendance, select_image. simpl frames.
    rewrite Hlib, (usable_frames_enough l Hl), Hm. simpl negb. cbv iota.
    destruct (decode_rgb _); reflexivity. }
  intros Hlen Hmot. split; [now apply Hmid|].
  intros fs' img' Hlen' Hmot' Hsame.
  rewrite (Hmid fs' img' Hlen' Hmot'), (Hmid fs img Hlen Hmot), Hsame. reflexivity.
Qed.

Lemma matching_uses_middle_frame_only_witness :
  @api_mark_attendance toy_env (mk_mark_request (Some ["b0A"; "bzB"; "b0C"]) None) w0
  = @recognise toy_env [[(98, 98, 98); (122, 122, 122); (66, 66, 66)]]%Z true w0
  /\ @api_mark_attendance toy_env (mk_mark_request (Some ["b0D"; "bzB"]) None) w0
     = @api_mark_attendance toy_env (mk_mark_request (Some ["b0A"; "bzB"; "b0C"]) None) w0.
Proof.
  destruct (@matching_uses_middle_frame_only toy_env ["b0A"; "bzB"; "b0C"] None w0
              ltac:(reflexivity) ltac:(simpl; lia) ltac:(vm_compute; reflexivity))
    as [Hmid Hsame].
  split; [exact Hmid|].
  apply Hsame; [simpl; lia | vm_compute; reflexivity | reflexivity].
Defined.

(** Only the face of the middle frame, ["B"] at distance 1/100 from the
    enrolled ["A"], is matched; the faces of the outer frames are not. *)
Example outer_frames_are_not_matched :
  json_get "matched"
    (body (snd (@api_mark_attendance toy_env
                  (mk_mark_request (Some ["b0A"; "bzB"; "b0C"]) None) w0)))
  = Some (JList [@match_entry w0 (1%nat, 7%nat, cs101_png) (1 # 100)]).
Proof. vm_compute. reflexivity. Qed.

(** ** The encoding cache *)

Section CacheFacts.
Context `{E : Env}.

Lemma extract_ignores_cache (w : World) (c : gmap string encoding) (path : string) :
  extract (with_cache w c) path = extract w path.
Proof. reflexivity. Qed.

(** A lookup that misses calls the extractor once and returns the first
    face of the file as it is now. *)
Lemma compute_miss (path : string) (w : World) :
  FACE_LIB_AVAILABLE = true -> ENCODING_CACHE w !! path = None ->
  extractions (fst (compute_face_encoding_from_file path w)) = path :: extractions w
  /\ snd (compute_face_encoding_from_file path w)
     = match extract w path with Some (e :: _) => Some e | _ => None end.
Proof.
  intros Hlib Hmiss. unfold compute_face_encoding_from_file. rewrite Hlib, Hmiss.
  simpl negb. cbv iota. destruct (extract w path) as [[|e rest]|]; split; reflexivity.
Qed.

(** [api_replace_photo] never touches the cache. *)
Lemma api_replace_photo_keeps_cache (data : photo_request) (w : World) :
  ENCODING_CACHE (fst (api_replace_photo data w)) = ENCODING_CACHE w.
Proof.
  unfold api_replace_photo, save_base64_image.
  destruct (req_student_id data) as [sid|]; [|reflexivity].
  destruct (req_photo data) as [photo|]; [|reflexivity].
  destruct (_ || _); [reflexivity|].
  destruct (find _ _); [|reflexivity].
  destruct (b64decode _); [|reflexivity].
  destruct FACE_LIB_AVAILABLE; reflexivity.
Qed.

End CacheFacts.

(** What the loop at the end of [api_delete_student] removes: the keys
    that contain the student id followed by ["_"] or ["."], and no
    others. *)
Lemma clear_keys_lookup (student_id : nat) (keys : list string)
      (c : gmap string encoding) (k : string) :
  fold_left (fun acc k' => if key_names_student student_id k' then delete k' acc else acc)
            keys c !! k
  = if key_names_student student_id k && bool_decide (k ∈ keys) then None else c !! k.
Proof.
  revert c. induction keys as [|k' rest IH]; intros c; cbn [fold_left].
  - rewrite bool_decide_eq_false_2 by apply not_elem_of_nil.
    now rewrite andb_false_r.
  - rewrite IH. destruct (key_names_student student_id k) eqn:Hk; cbn [andb].
    + destruct (decide (k = k')) as [<- | Hne].
      * rewrite Hk, lookup_delete_eq.
        rewrite (bool_decide_eq_true_2 (k ∈ k :: rest)) by apply list_elem_of_here.
        now destruct (bool_decide (k ∈ rest)).
      * assert (bool_decide (k ∈ k' :: rest) = bool_decide (k ∈ rest)) as ->.
        { apply bool_decide_ext. rewrite elem_of_cons. tauto. }
        destruct (bool_decide (k ∈ rest)); [reflexivity|].
        destruct (key_names_student student_id k'); [|reflexivity].
        now rewrite lookup_delete_ne.
    + destruct (key_names_student student_id k') eqn:Hk'; [|reflexivity].
      rewrite lookup_delete_ne; [reflexivity | congruence].
Qed.

Lemma clear_encoding_cache_lookup (student_id : nat) (c : gmap string encoding)
      (k : string) :
  clear_encoding_cache student_id c !! k
  = if key_names_student student_id k then None else c !! k.
Proof.
  unfold clear_encoding_cache. rewrite clear_keys_lookup.
  destruct (key_names_student student_id k); [simpl | reflexivity].
  destruct (c !! k) as [e|] eqn:Hc.
  - rewrite bool_decide_eq_true_2; [reflexivity|].
    apply list_elem_of_fmap. exists (k, e). split; [reflexivity|].
    now apply elem_of_map_to_list.
  - now destruct (bool_decide _).
Qed.

(** C7. With the face library present: the cache gains an entry only for
    the looked-up path and only when the extractor found a face there; a
    miss on a photo without a face (or an unreadable one) returns absent,
    leaves the cache as it was and calls the extractor, and so does the
    next lookup of the same path; and a lookup after [evict] calls the
    extractor and answers from the file as it is now. *)
Theorem cache_stores_only_successes `{E : Env} (path : string) (w : World) :
  FACE_LIB_AVAILABLE = true ->
  (forall (k : string) (e : encoding),
      ENCODING_CACHE (fst (compute_face_encoding_from_file path w)) !! k = Some e ->
      ENCODING_CACHE w !! k = Some e
      \/ (k = path /\ exists rest, extract w path = Some (e :: rest)))
  /\ (ENCODING_CACHE w !! path = None ->
      extract w path = None \/ extract w path = Some [] ->
      snd (compute_face_encoding_from_file path w) = None
      /\ ENCODING_CACHE (fst (compute_face_encoding_from_file path w)) = ENCODING_CACHE w
      /\ extractions (fst (compute_face_encoding_from_file path w)) = path :: extractions w
      /\ extractions (fst (compute_face_encoding_from_file path
                             (fst (compute_face_encoding_from_file path w))))
         = path :: path :: extractions w)
  /\ (extractions (fst (compute_face_encoding_from_file path (evict path w)))
      = path :: extractions w
      /\ snd (compute_face_encoding_from_file path (evict path w))
         = match extract w path with Some (e :: _) => Some e | _ => None end).
Proof.
  intros Hlib. split; [|split].
  - intros k e. unfold compute_face_encoding_from_file. rewrite Hlib. simpl negb. cbv iota.
    destruct (ENCODING_CACHE w !! path) as [hit|] eqn:Hc; [now left|].
    destruct (extract w path) as [[|enc rest]|]; simpl; try (now left).
    destruct (decide (path = k)) as [<- | Hne].
    + rewrite lookup_insert_eq. intros [= <-]. right. eauto.
    + rewrite lookup_insert_ne by assumption. now left.
  - intros Hmiss Hnone.
    assert (Hstep : forall w0, ENCODING_CACHE w0 !! path = None ->
              extract w0 path = None \/ extract w0 path = Some [] ->
              compute_face_encoding_from_file path w0
              = (with_extractions w0 (path :: extractions w0), None)).
    { intros w0 Hm Hn. unfold compute_face_encoding_from_file.
      rewrite Hlib, Hm. simpl negb. cbv iota. now destruct Hn as [-> | ->]. }
    rewrite (Hstep w Hmiss Hnone). simpl.
    rewrite (Hstep (with_extractions w (path :: extractions w)) Hmiss Hnone).
    repeat split.
  - apply (compute_miss path (evict path w) Hlib). simpl. apply lookup_delete_eq.
Qed.

Lemma cache_stores_only_successes_witness :
  (snd (@compute_face_encoding_from_file toy_env missing_png w0) = None
   /\ ENCODING_CACHE (fst (@compute_face_encoding_from_file toy_env missing_png w0))
      = ENCODING_CACHE w0
   /\ extractions (fst (@compute_face_encoding_from_file toy_env missing_png w0))
      = missing_png :: extractions w0
   /\ extractions (fst (@compute_face_encoding_from_file toy_env missing_png
                          (fst (@compute_face_encoding_from_file toy_env missing_png w0))))
      = missing_png :: missing_png :: extractions w0)
  /\ (extractions (fst (@compute_face_encoding_from_file toy_env cs101_png
                          (evict cs101_png w0_stale)))
      = cs101_png :: extractions w0_stale
      /\ snd (@compute_face_encoding_from_file toy_env cs101_png (evict cs101_png w0_stale))
         = match @extract toy_env w0_stale cs101_png with
           | Some (e :: _) => Some e
           | _ => None
           end).
Proof.
  split.
  - apply (proj1 (proj2 (@cache_stores_only_successes toy_env missing_png w0 eq_refl)));
      [reflexivity | left; reflexivity].
  - apply (proj2 (proj2 (@cache_stores_only_successes toy_env cs101_png w0_stale eq_refl))).
Defined.

(** Without the eviction the stale encoding 90 is returned; after it, the
    encoding 65 of the file. *)
Example evict_then_lookup_recomputes :
  snd (@compute_face_encoding_from_file toy_env cs101_png w0_stale) = Some [inject_Z 90]
  /\ snd (@compute_face_encoding_from_file toy_env cs101_png (evict cs101_png w0_stale))
     = Some [inject_Z 65].
Proof. vm_compute. split; reflexivity. Qed.

(** ** Photo handlers and the cache *)

(** C2, where the code falls short of it. Student 7 has one stored photo,
    [CS101.png], whose encoding is cached.  After [api_replace_photo] and
    after [api_delete_student] the file is gone and the cache still holds
    the entry, also once the warming thread has run; a new file stored
    under the same path is then answered from the stale entry. *)
Theorem stale_cache_entry_survives :
  photo_paths_of w0_cached 7 = [cs101_png]
  /\ ENCODING_CACHE w0_cached !! cs101_png = Some [inject_Z 65]
  /\ (let r := @api_replace_photo toy_env (mk_photo_request (Some 7%nat) (Some "K")) w0_cached in
      status (snd r) = 200%nat
      /\ files (fst r) !! cs101_png = None
      /\ photo_paths_of (fst r) 7 = ["/srv/static/photos/7_20240501090000.png"]
      /\ ENCODING_CACHE (fst r) !! cs101_png = Some [inject_Z 65]
      /\ ENCODING_CACHE (@run_thread toy_env (fst r)) !! cs101_png = Some [inject_Z 65])
  /\ (let r := api_delete_student 7 w0_cached in
      status (snd r) = 200%nat
      /\ files (fst r) !! cs101_png = None
      /\ photo_paths_of (fst r) 7 = []
      /\ ENCODING_CACHE (fst r) !! cs101_png = Some [inject_Z 65]
      /\ snd (@compute_face_encoding_from_file toy_env cs101_png
                (with_files (fst r) {[ cs101_png := "Z" ]}))
         = Some [inject_Z 65]).
Proof. vm_compute. repeat split. Qed.

(* ===================================================================== *)
(** * Part III: further properties of the handlers                       *)
(* ===================================================================== *)

(** ** Python strings *)

Lemma prefix_append (s t : string) : String.prefix s (s +:+ t) = true.
Proof.
  induction s as [|c s IH]; simpl.
  - now destruct t.
  - destruct (ascii_dec c c); [exact IH | congruence].
Qed.

Lemma str_append_assoc (a b c : string) : (a +:+ b) +:+ c = a +:+ b +:+ c.
Proof.
  induction a as [|x a IH]; [reflexivity|].
  change (String x ((a +:+ b) +:+ c) = String x (a +:+ b +:+ c)). now rewrite IH.
Qed.

Lemma contains_unfold (sub s : string) :
  Py.contains sub s
  = String.prefix sub s
    || match s with EmptyString => false | String _ r => Py.contains sub r end.
Proof. destruct s; reflexivity. Qed.

(** [sub in pre + sub + post] *)
Lemma contains_infix (sub pre post : string) :
  Py.contains sub (pre +:+ sub +:+ post) = true.
Proof.
  induction pre as [|c pre IH].
  - change ("" +:+ sub +:+ post) with (sub +:+ post).
    rewrite contains_unfold. now rewrite prefix_append.
  - change (String c pre +:+ sub +:+ post) with (String c (pre +:+ sub +:+ post)).
    rewrite contains_unfold. rewrite IH. apply orb_true_r.
Qed.

Lemma prefix_comma (c : ascii) (s : string) :
  String.prefix "," (String c s) = Ascii.eqb c ",".
Proof.
  cbn [String.prefix]. destruct (ascii_dec "," c) as [<- | Hne]; [now destruct s|].
  symmetry. apply Ascii.eqb_neq. congruence.
Qed.

Lemma after_comma_none (s : string) :
  Py.contains "," s = false -> Py.after_comma s = None.
Proof.
  induction s as [|c s IH]; [reflexivity|].
  rewrite contains_unfold. intros H. apply orb_false_iff in H as [Hp Hr].
  rewrite prefix_comma in Hp. simpl. rewrite Hp. now apply IH.
Qed.

Lemma after_comma_append (pre payload : string) :
  Py.contains "," pre = false ->
  Py.after_comma (pre +:+ "," +:+ payload) = Some payload.
Proof.
  induction pre as [|c pre IH]; [reflexivity|].
  rewrite contains_unfold. intros H. apply orb_false_iff in H as [Hp Hr].
  rewrite prefix_comma in Hp. simpl. rewrite Hp. now apply IH.
Qed.

Lemma strip_data_url_append (pre payload : string) :
  Py.contains "," pre = false ->
  Py.strip_data_url (pre +:+ "," +:+ payload) = payload.
Proof. intros H. unfold Py.strip_data_url. now rewrite after_comma_append. Qed.

Lemma strip_data_url_plain (s : string) :
  Py.contains "," s = false -> Py.strip_data_url s = s.
Proof. intros H. unfold Py.strip_data_url. now rewrite after_comma_none. Qed.

(** X1. An image may be sent as a data URL or as bare base64: when
    neither the text before the first comma nor the payload contains a
    comma, the liveness decoder, the recognition decoder and
    [save_base64_image] treat [prefix + "," + payload] exactly as they
    treat [payload]. *)
Theorem data_url_prefix_is_dropped `{E : Env} (pre payload filename : string) (w : World) :
  Py.contains "," pre = false ->
  Py.contains "," payload = false ->
  decode_gray (pre +:+ "," +:+ payload) = decode_gray payload
  /\ decode_rgb (pre +:+ "," +:+ payload) = decode_rgb payload
  /\ save_base64_image (pre +:+ "," +:+ payload) filename w
     = save_base64_image payload filename w.
Proof.
  intros Hpre Hpay. unfold decode_gray, decode_rgb, save_base64_image.
  rewrite (strip_data_url_append pre payload Hpre), (strip_data_url_plain payload Hpay).
  repeat split.
Qed.

Lemma data_url_prefix_is_dropped_witness :
  @decode_gray toy_env ("data:image/png;base64" +:+ "," +:+ "b0A") = @decode_gray toy_env "b0A"
  /\ @decode_rgb toy_env ("data:image/png;base64" +:+ "," +:+ "b0A") = @decode_rgb toy_env "b0A"
  /\ @save_base64_image toy_env ("data:image/png;base64" +:+ "," +:+ "b0A") "7_1.png" w0
     = @save_base64_image toy_env "b0A" "7_1.png" w0.
Proof.
  apply (@data_url_prefix_is_dropped toy_env "data:image/png;base64" "b0A" "7_1.png" w0);
    reflexivity.
Defined.

(** ** Deleting a student *)

Lemma remove_files_lookup (paths : list string) (fs : gmap string bytes) (k : string) :
  remove_files paths fs !! k = if bool_decide (k ∈ paths) then None else fs !! k.
Proof.
  unfold remove_files. revert fs.
  induction paths as [|p rest IH]; intros fs; cbn [fold_left].
  - now rewrite bool_decide_eq_false_2 by apply not_elem_of_nil.
  - rewrite IH. destruct (decide (k = p)) as [-> | Hne].
    + rewrite lookup_delete_eq.
      rewrite (bool_decide_eq_true_2 (p ∈ p :: rest)) by apply list_elem_of_here.
      now destruct (bool_decide (p ∈ rest)).
    + assert (bool_decide (k ∈ p :: rest) = bool_decide (k ∈ rest)) as ->.
      { apply bool_decide_ext. rewrite elem_of_cons. tauto. }
      destruct (bool_decide (k ∈ rest)); [reflexivity|].
      now rewrite lookup_delete_ne.
Qed.

Lemma photo_paths_after_delete_rows (student_id sid : nat) (w : World) :
  photo_paths_of (delete_photo_rows student_id w) sid
  = if (sid =? student_id)%nat then [] else photo_paths_of w sid.
Proof.
  unfold photo_paths_of, delete_photo_rows. simpl.
  induction (photos w) as [|r rest IH]; simpl.
  - now destruct (sid =? student_id)%nat.
  - destruct (p_student_id r =? student_id)%nat eqn:Hr; simpl.
    + rewrite IH. destruct (sid =? student_id)%nat eqn:Hs; [reflexivity|].
      apply Nat.eqb_eq in Hr. apply Nat.eqb_neq in Hs.
      assert ((p_student_id r =? sid)%nat = false) as -> by (apply Nat.eqb_neq; lia).
      reflexivity.
    + destruct (p_student_id r =? sid)%nat eqn:Hrs; simpl; rewrite IH.
      * apply Nat.eqb_eq in Hrs. apply Nat.eqb_neq in Hr.
        assert ((sid =? student_id)%nat = false) as -> by (apply Nat.eqb_neq; lia).
        reflexivity.
      * now destruct (sid =? student_id)%nat.
Qed.

(** X2. What [api_delete_student] does to the cache, for every world and
    key: a key is dropped exactly when it contains the student id followed
    by ["_"] or by ["."]; every other entry is kept as it was. *)
Theorem delete_student_cache_effect (student_id : nat) (w : World) (k : string) :
  ENCODING_CACHE (fst (api_delete_student student_id w)) !! k
  = if Py.contains (Py.str student_id +:+ "_") k || Py.contains (Py.str student_id +:+ ".") k
    then None
    else ENCODING_CACHE w !! k.
Proof.
  unfold api_delete_student. cbn [fst ENCODING_CACHE with_cache].
  rewrite clear_encoding_cache_lookup. cbn [ENCODING_CACHE with_students with_attendance
    delete_photo_rows with_photos with_files].
  unfold key_names_student.
  destruct (Py.contains (Py.str student_id +:+ "_") k) eqn:Hu.
  - now rewrite orb_true_r.
  - rewrite orb_false_r. simpl orb.
    destruct (Py.contains ("/" +:+ Py.str student_id +:+ "_") k) eqn:Hs; [|reflexivity].
    exfalso. clear -Hu Hs. revert Hu Hs.
    induction k as [|c k IH]; [discriminate|].
    rewrite (contains_unfold (Py.str student_id +:+ "_")).
    rewrite (contains_unfold ("/" +:+ Py.str student_id +:+ "_")).
    intros Hu Hs. apply orb_false_iff in Hu as [Hp Hr].
    apply orb_true_iff in Hs as [Hs | Hs]; [|now apply IH].
    change ("/" +:+ Py.str student_id +:+ "_")
      with (String "/" (Py.str student_id +:+ "_")) in Hs.
    cbn [String.prefix] in Hs. destruct (ascii_dec "/" c); [|discriminate].
    rewrite contains_unfold in Hr. apply orb_false_iff in Hr as [Hr _]. congruence.
Qed.

(** X3. A photo stored under the name [api_upload_photo] and
    [api_replace_photo] choose, [<PHOTO_DIR>/<id>_<stamp>.png], never
    keeps its cache entry when that student is deleted. *)
Theorem delete_student_evicts_stamped_photo `{E : Env}
        (student_id : nat) (ts : string) (w : World) :
  ENCODING_CACHE (fst (api_delete_student student_id w)) !! stamped_path student_id ts = None.
Proof.
  unfold api_delete_student. cbn [fst ENCODING_CACHE with_cache].
  rewrite clear_encoding_cache_lookup.
  assert (key_names_student student_id (stamped_path student_id ts) = true) as ->;
    [|reflexivity].
  unfold key_names_student, stamped_path, photo_path_of.
  assert (Py.contains (Py.str student_id +:+ "_")
            (PHOTO_DIR +:+ "/" +:+ Py.str student_id +:+ "_" +:+ ts +:+ ".png") = true) as ->.
  { replace (PHOTO_DIR +:+ "/" +:+ Py.str student_id +:+ "_" +:+ ts +:+ ".png")
      with ((PHOTO_DIR +:+ "/") +:+ (Py.str student_id +:+ "_") +:+ (ts +:+ ".png")).
    - apply contains_infix.
    - now rewrite !str_append_assoc. }
  apply orb_true_r.
Qed.

(** X4. The same loop reaches across students: deleting student [a]
    also drops the cache entry of the stamped photo of any other student
    [b] whose decimal id ends with the digits of [a] (1 and 11, 5 and 25). *)
Theorem delete_student_evicts_other_students `{E : Env}
        (a b : nat) (digits ts : string) (w : World) :
  a <> b ->
  Py.str b = digits +:+ Py.str a ->
  ENCODING_CACHE (fst (api_delete_student a w)) !! stamped_path b ts = None.
Proof.
  intros _ Hends. unfold api_delete_student. cbn [fst ENCODING_CACHE with_cache].
  rewrite clear_encoding_cache_lookup.
  assert (key_names_student a (stamped_path b ts) = true) as ->; [|reflexivity].
  unfold key_names_student, stamped_path, photo_path_of. rewrite Hends.
  assert (Py.contains (Py.str a +:+ "_")
            (PHOTO_DIR +:+ "/" +:+ (digits +:+ Py.str a) +:+ "_" +:+ ts +:+ ".png") = true) as ->.
  { replace (PHOTO_DIR +:+ "/" +:+ (digits +:+ Py.str a) +:+ "_" +:+ ts +:+ ".png")
      with ((PHOTO_DIR +:+ "/" +:+ digits) +:+ (Py.str a +:+ "_") +:+ (ts +:+ ".png")).
    - apply contains_infix.
    - now rewrite !str_append_assoc. }
  apply orb_true_r.
Qed.

Lemma delete_student_evicts_other_students_witness :
  ENCODING_CACHE w_two !! @stamped_path toy_env 11 "20240502" = Some [inject_Z 66]
  /\ ENCODING_CACHE (fst (api_delete_student 1 w_two)) !! @stamped_path toy_env 11 "20240502"
     = None.
Proof.
  split; [reflexivity|].
  apply (@delete_student_evicts_other_students toy_env 1 11 "1" "20240502" w_two);
    [discriminate | reflexivity].
Defined.


(** ** Replacing and uploading photos *)

Lemma find_student_some (w : World) (student_id : nat) :
  (exists s, In s (students w) /\ s_student_id s = student_id) ->
  exists s, find (fun s => (s_student_id s =? student_id)%nat) (students w) = Some s.
Proof.
  intros (s & Hin & Hid).
  destruct (find (fun s => (s_student_id s =? student_id)%nat) (students w)) as [s'|] eqn:Hf;
    [eauto|].
  exfalso. pose proof (find_none _ _ Hf s Hin) as Hn. simpl in Hn.
  apply Nat.eqb_neq in Hn. contradiction.
Qed.

Lemma photo_paths_same_photos (w1 w2 : World) (sid : nat) :
  photos w1 = photos w2 -> photo_paths_of w1 sid = photo_paths_of w2 sid.
Proof. unfold photo_paths_of. now intros ->. Qed.

Lemma photo_paths_append (w : World) (ps : list photo_row) (r : photo_row) (n sid : nat) :
  photo_paths_of (with_photos w (ps ++ [r]) n) sid
  = photo_paths_of (with_photos w ps n) sid
    ++ (if (p_student_id r =? sid)%nat then [p_photo_path r] else []).
Proof.
  unfold photo_paths_of. cbn [photos with_photos].
  rewrite List.filter_app, List.map_app. simpl. now destruct (p_student_id r =? sid)%nat.
Qed.

(** The world [api_replace_photo] has reached when it calls
    [save_base64_image]: old files removed, old rows deleted, the clock
    read once. *)
Lemma replace_photo_accepted `{E : Env} (student_id : nat) (photo_b64 : string) (w : World) :
  student_id <> 0%nat -> Py.truthy photo_b64 = true ->
  (exists s, In s (students w) /\ s_student_id s = student_id) ->
  api_replace_photo (mk_photo_request (Some student_id) (Some photo_b64)) w
  = let w3 := tick (delete_photo_rows student_id
                      (with_files w (remove_files (photo_paths_of w student_id) (files w)))) in
    let filename := Py.str student_id +:+ "_" +:+ strftime_stamp (now (clock w)) +:+ ".png" in
    match save_base64_image photo_b64 filename w3 with
    | None => (w3, failure 500 "Error saving replacement photo")
    | Some (w4, saved) =>
        let w5 := tick w4 in
        let row := mk_photo (S (photos_seq w5)) student_id saved filename
                            (isoformat (now (clock w4))) in
        let w6 := with_photos w5 (photos w5 ++ [row]) (S (photos_seq w5)) in
        (if FACE_LIB_AVAILABLE then with_threads w6 (threads w6 ++ [saved]) else w6,
         mk_response 200 (JObj [("success", JBool true);
                                ("photo_url", JStr ("/photos/" +:+ filename));
                                ("message", JStr "Photo replaced")]))
    end.
Proof.
  intros Hid Hphoto Hs. unfold api_replace_photo. cbn [req_student_id req_photo].
  assert ((student_id =? 0)%nat = false) as -> by now apply Nat.eqb_neq.
  rewrite Hphoto. cbn [negb orb].
  destruct (find_student_some w student_id Hs) as [s ->]. reflexivity.
Qed.

(** X6. A successful replacement. For an existing student and a photo
    that decodes, [api_replace_photo] answers 200 and leaves the student
    with exactly one photo row, stored at [<PHOTO_DIR>/<id>_<stamp>.png]
    with the decoded bytes; the files of the earlier rows are removed,
    the photo rows of other students and every other file are untouched,
    and a cache-warming thread for the new path is started when the face
    library is present. *)
Theorem replace_photo_success `{E : Env}
        (student_id : nat) (photo_b64 : string) (img : bytes) (w : World) :
  student_id <> 0%nat -> Py.truthy photo_b64 = true ->
  (exists s, In s (students w) /\ s_student_id s = student_id) ->
  b64decode (Py.strip_data_url photo_b64) = Some img ->
  let r := api_replace_photo (mk_photo_request (Some student_id) (Some photo_b64)) w in
  let path := stamped_path student_id (strftime_stamp (now (clock w))) in
  status (snd r) = 200%nat
  /\ photo_paths_of (fst r) student_id = [path]
  /\ (forall sid, sid <> student_id -> photo_paths_of (fst r) sid = photo_paths_of w sid)
  /\ files (fst r) !! path = Some img
  /\ (forall p, p <> path ->
        files (fst r) !! p
        = if bool_decide (p ∈ photo_paths_of w student_id) then None else files w !! p)
  /\ threads (fst r) = (if FACE_LIB_AVAILABLE then threads w ++ [path] else threads w)
  /\ students (fst r) = students w /\ attendance (fst r) = attendance w.
Proof.
  intros Hid Hphoto Hs Hdec r path. subst r.
  rewrite (replace_photo_accepted student_id photo_b64 w Hid Hphoto Hs).
  unfold save_base64_image. rewrite Hdec. cbv zeta.
  fold (stamped_path student_id (strftime_stamp (now (clock w)))). fold path.
  assert (Hpaths : forall sid,
            photo_paths_of
              (with_photos
                 (tick (with_files
                          (tick (delete_photo_rows student_id
                                   (with_files w (remove_files (photo_paths_of w student_id)
                                                               (files w)))))
                          (<[path := img]>
                             (files (tick (delete_photo_rows student_id
                                             (with_files w (remove_files
                                                              (photo_paths_of w student_id)
                                                              (files w)))))))))
                 (photos (delete_photo_rows student_id w)
                  ++ [mk_photo (S (photos_seq w)) student_id path
                               (Py.str student_id +:+ "_" +:+ strftime_stamp (now (clock w))
                                +:+ ".png")
                               (isoformat (now (S (clock w))))])
                 (S (photos_seq w))) sid
            = (if (sid =? student_id)%nat then [] else photo_paths_of w sid)
              ++ (if (student_id =? sid)%nat then [path] else [])).
  { intros sid. rewrite photo_paths_append. cbn [p_student_id p_photo_path]. f_equal.
    rewrite <- (photo_paths_after_delete_rows student_id sid w). reflexivity. }
  destruct FACE_LIB_AVAILABLE; cbn [fst snd status];
    (split; [reflexivity|]);
    (split; [etransitivity; [|etransitivity; [apply (Hpaths student_id)|]];
             [reflexivity | now rewrite Nat.eqb_refl]|]);
    (split; [intros sid Hne; etransitivity; [|etransitivity; [apply (Hpaths sid)|]];
             [reflexivity|];
             assert ((sid =? student_id)%nat = false) as -> by (apply Nat.eqb_neq; lia);
             assert ((student_id =? sid)%nat = false) as -> by (apply Nat.eqb_neq; lia);
             apply app_nil_r|]);
    (split; [cbn; apply lookup_insert_eq|]);
    (split; [intros p Hp; cbn; rewrite lookup_insert_ne by congruence;
             apply remove_files_lookup|]);
    repeat split.
Qed.

(** X7. A replacement that cannot be stored is not undone. When the
    photo of an existing student does not decode, [api_replace_photo]
    answers 500 after it has already deleted the student's photo rows and
    files: the student is left without any photo, and no thread is
    started. *)
Theorem replace_photo_failure_loses_photos `{E : Env}
        (student_id : nat) (photo_b64 : string) (w : World) :
  student_id <> 0%nat -> Py.truthy photo_b64 = true ->
  (exists s, In s (students w) /\ s_student_id s = student_id) ->
  b64decode (Py.strip_data_url photo_b64) = None ->
  let r := api_replace_photo (mk_photo_request (Some student_id) (Some photo_b64)) w in
  status (snd r) = 500%nat
  /\ photo_paths_of (fst r) student_id = []
  /\ (forall p, In p (photo_paths_of w student_id) -> files (fst r) !! p = None)
  /\ threads (fst r) = threads w.
Proof.
  intros Hid Hphoto Hs Hdec r. subst r.
  rewrite (replace_photo_accepted student_id photo_b64 w Hid Hphoto Hs).
  unfold save_base64_image. rewrite Hdec. cbv zeta. cbn [fst snd status failure].
  split; [reflexivity|]. split; [|split; [|reflexivity]].
  - etransitivity; [apply (photo_paths_same_photos _ (delete_photo_rows student_id w));
                    reflexivity|].
    rewrite photo_paths_after_delete_rows. now rewrite Nat.eqb_refl.
  - intros p Hp. cbn. rewrite remove_files_lookup.
    rewrite bool_decide_eq_true_2; [reflexivity|]. now apply list_elem_of_In.
Qed.

Lemma replace_photo_failure_loses_photos_witness :
  status (snd (@api_replace_photo toy_env (mk_photo_request (Some 7%nat) (Some "!bad")) w0))
  = 500%nat
  /\ photo_paths_of w0 7 = [cs101_png]
  /\ photo_paths_of
       (fst (@api_replace_photo toy_env (mk_photo_request (Some 7%nat) (Some "!bad")) w0)) 7
     = []
  /\ files (fst (@api_replace_photo toy_env (mk_photo_request (Some 7%nat) (Some "!bad")) w0))
       !! cs101_png = None.
Proof.
  destruct (@replace_photo_failure_loses_photos toy_env 7 "!bad" w0
              ltac:(discriminate) ltac:(reflexivity)
              ltac:(exists (mk_student 7 (Some "CS101") "Asha"); split;
                    [left; reflexivity | reflexivity])
              ltac:(reflexivity))
    as (Hst & Hpaths & Hfiles & _).
  split; [exact Hst|]. split; [reflexivity|]. split; [exact Hpaths|].
  apply Hfiles. left. reflexivity.
Defined.

(** X8. Requests the photo handlers reject for their content change
    nothing: a 400 or 404 from [api_replace_photo], and a 400, 404 or 409
    from [api_upload_photo], come with the world exactly as it was. *)
Theorem photo_request_rejected_without_effect `{E : Env} (data : photo_request) (w : World) :
  (status (snd (api_replace_photo data w)) = 400%nat
   \/ status (snd (api_replace_photo data w)) = 404%nat ->
   fst (api_replace_photo data w) = w)
  /\ (status (snd (api_upload_photo data w)) = 400%nat
      \/ status (snd (api_upload_photo data w)) = 404%nat
      \/ status (snd (api_upload_photo data w)) = 409%nat ->
      fst (api_upload_photo data w) = w).
Proof.
  split.
  - unfold api_replace_photo.
    destruct (req_student_id data) as [sid|]; [|reflexivity].
    destruct (req_photo data) as [photo|]; [|reflexivity].
    destruct (_ || _); [reflexivity|].
    destruct (find _ _); [|reflexivity].
    destruct (save_base64_image _ _ _) as [[w4 saved]|]; cbn [fst snd status failure];
      intros [H | H]; discriminate H.
  - unfold api_upload_photo.
    destruct (req_student_id data) as [sid|]; [|reflexivity].
    destruct (req_photo data) as [photo|]; [|reflexivity].
    destruct (_ || _); [reflexivity|].
    destruct (find _ _); [|reflexivity].
    destruct (student_has_photo w sid); [reflexivity|].
    destruct (_ || _); [cbn [fst snd status failure]; intros [H | [H | H]]; discriminate H|].
    destruct (save_base64_image _ _ _) as [[w4 saved]|]; cbn [fst snd status failure];
      intros [H | [H | H]]; discriminate H.
Qed.

Lemma photo_request_rejected_without_effect_witness :
  fst (@api_replace_photo toy_env (mk_photo_request (Some 8%nat) (Some "K")) w0) = w0
  /\ fst (@api_upload_photo toy_env (mk_photo_request (Some 7%nat) (Some "K")) w0) = w0.
Proof.
  split.
  - apply (proj1 (@photo_request_rejected_without_effect toy_env
                    (mk_photo_request (Some 8%nat) (Some "K")) w0)).
    right. reflexivity.
  - apply (proj2 (@photo_request_rejected_without_effect toy_env
                    (mk_photo_request (Some 7%nat) (Some "K")) w0)).
    right. right. reflexivity.
Defined.

(** The world [api_upload_photo] has reached when it calls
    [save_base64_image]. *)
Lemma upload_photo_accepted `{E : Env} (student_id : nat) (photo_b64 : string) (w : World) :
  student_id <> 0%nat -> Py.truthy photo_b64 = true ->
  (exists s, In s (students w) /\ s_student_id s = student_id) ->
  student_has_photo w student_id = false ->
  files w !! stamped_path student_id (strftime_stamp (now (clock w))) = None ->
  filename_exists_in_db w
    (Py.str student_id +:+ "_" +:+ strftime_stamp (now (clock w)) +:+ ".png") = false ->
  api_upload_photo (mk_photo_request (Some student_id) (Some photo_b64)) w
  = let filename := Py.str student_id +:+ "_" +:+ strftime_stamp (now (clock w)) +:+ ".png" in
    match save_base64_image photo_b64 filename (tick w) with
    | None => (tick w, failure 500 "Error saving photo")
    | Some (w2, saved) =>
        let w3 := tick w2 in
        let row := mk_photo (S (photos_seq w3)) student_id saved filename
                            (isoformat (now (clock w2))) in
        let w4 := with_photos w3 (photos w3 ++ [row]) (S (photos_seq w3)) in
        (if FACE_LIB_AVAILABLE then with_threads w4 (threads w4 ++ [saved]) else w4,
         mk_response 201 (JObj [("success", JBool true);
                                ("photo_url", JStr ("/photos/" +:+ filename));
                                ("message", JStr "Photo uploaded")]))
    end.
Proof.
  intros Hid Hphoto Hs Hnone Hfile Hname. unfold api_upload_photo.
  cbn [req_student_id req_photo].
  assert ((student_id =? 0)%nat = false) as -> by now apply Nat.eqb_neq.
  rewrite Hphoto. cbn [negb orb].
  destruct (find_student_some w student_id Hs) as [s ->]. rewrite Hnone.
  unfold os_path_exists, filename_exists_in_db in *. cbn [files photos tick].
  unfold stamped_path in Hfile. rewrite Hfile, Hname. reflexivity.
Qed.

(** X9. A successful upload. For an existing student without a photo, a
    photo that decodes and a free file name, [api_upload_photo] answers
    201 and the student has exactly one photo row afterwards, stored at
    [<PHOTO_DIR>/<id>_<stamp>.png] with the decoded bytes; other students'
    photo rows and all other files are untouched. *)
Theorem upload_photo_success `{E : Env}
        (student_id : nat) (photo_b64 : string) (img : bytes) (w : World) :
  student_id <> 0%nat -> Py.truthy photo_b64 = true ->
  (exists s, In s (students w) /\ s_student_id s = student_id) ->
  student_has_photo w student_id = false ->
  files w !! stamped_path student_id (strftime_stamp (now (clock w))) = None ->
  filename_exists_in_db w
    (Py.str student_id +:+ "_" +:+ strftime_stamp (now (clock w)) +:+ ".png") = false ->
  b64decode (Py.strip_data_url photo_b64) = Some img ->
  let r := api_upload_photo (mk_photo_request (Some student_id) (Some photo_b64)) w in
  let path := stamped_path student_id (strftime_stamp (now (clock w))) in
  status (snd r) = 201%nat
  /\ photo_paths_of (fst r) student_id = [path]
  /\ (forall sid, sid <> student_id -> photo_paths_of (fst r) sid = photo_paths_of w sid)
  /\ files (fst r) !! path = Some img
  /\ (forall p, p <> path -> files (fst r) !! p = files w !! p)
  /\ threads (fst r) = (if FACE_LIB_AVAILABLE then threads w ++ [path] else threads w).
Proof.
  intros Hid Hphoto Hs Hnone Hfile Hname Hdec r path. subst r.
  rewrite (upload_photo_accepted student_id photo_b64 w Hid Hphoto Hs Hnone Hfile Hname).
  unfold save_base64_image. rewrite Hdec. cbv zeta.
  fold (stamped_path student_id (strftime_stamp (now (clock w)))). fold path.
  assert (Hempty : photo_paths_of w student_id = []).
  { unfold student_has_photo in Hnone. unfold photo_paths_of.
    destruct (List.filter _ (photos w)); [reflexivity | simpl in Hnone; discriminate]. }
  assert (Hpaths : forall sid,
            photo_paths_of
              (with_photos (tick (with_files (tick w) (<[path := img]> (files (tick w)))))
                 (photos w
                  ++ [mk_photo (S (photos_seq w)) student_id path
                               (Py.str student_id +:+ "_" +:+ strftime_stamp (now (clock w))
                                +:+ ".png")
                               (isoformat (now (S (clock w))))])
                 (S (photos_seq w))) sid
            = photo_paths_of w sid ++ (if (student_id =? sid)%nat then [path] else [])).
  { intros sid. rewrite photo_paths_append. reflexivity. }
  destruct FACE_LIB_AVAILABLE; cbn [fst snd status];
    (split; [reflexivity|]);
    (split; [etransitivity; [|etransitivity; [apply (Hpaths student_id)|]];
             [reflexivity | now rewrite Hempty, Nat.eqb_refl]|]);
    (split; [intros sid Hne; etransitivity; [|etransitivity; [apply (Hpaths sid)|]];
             [reflexivity|];
             assert ((student_id =? sid)%nat = false) as -> by (apply Nat.eqb_neq; lia);
             apply app_nil_r|]);
    (split; [cbn; apply lookup_insert_eq|]);
    (split; [intros p Hp; cbn; now rewrite lookup_insert_ne by congruence|]);
    reflexivity.
Qed.

Lemma replace_photo_success_witness :
  status (snd (@api_replace_photo toy_env (mk_photo_request (Some 7%nat) (Some "K")) w0))
  = 200%nat
  /\ photo_paths_of (fst (@api_replace_photo toy_env (mk_photo_request (Some 7%nat) (Some "K")) w0)) 7
     = ["/srv/static/photos/7_20240501090000.png"]
  /\ files (fst (@api_replace_photo toy_env (mk_photo_request (Some 7%nat) (Some "K")) w0))
       !! "/srv/static/photos/7_20240501090000.png" = Some "K"
  /\ files (fst (@api_replace_photo toy_env (mk_photo_request (Some 7%nat) (Some "K")) w0))
       !! cs101_png = None.
Proof.
  destruct (@replace_photo_success toy_env 7 "K" "K" w0
              ltac:(discriminate) ltac:(reflexivity)
              ltac:(exists (mk_student 7 (Some "CS101") "Asha"); split;
                    [left; reflexivity | reflexivity])
              ltac:(reflexivity))
    as (Hst & Hpaths & _ & Hnew & Hold & _).
  split; [exact Hst|]. split; [exact Hpaths|]. split; [exact Hnew|].
  rewrite (Hold cs101_png); [reflexivity | discriminate].
Defined.

Lemma upload_photo_success_witness :
  status (snd (@api_upload_photo toy_env (mk_photo_request (Some 7%nat) (Some "K")) w_enrolled))
  = 201%nat
  /\ photo_paths_of
       (fst (@api_upload_photo toy_env (mk_photo_request (Some 7%nat) (Some "K")) w_enrolled)) 7
     = ["/srv/static/photos/7_20240501090000.png"]
  /\ files (fst (@api_upload_photo toy_env (mk_photo_request (Some 7%nat) (Some "K")) w_enrolled))
       !! "/srv/static/photos/7_20240501090000.png" = Some "K".
Proof.
  destruct (@upload_photo_success toy_env 7 "K" "K" w_enrolled
              ltac:(discriminate) ltac:(reflexivity)
              ltac:(exists (mk_student 7 (Some "CS101") "Asha"); split;
                    [left; reflexivity | reflexivity])
              ltac:(reflexivity) ltac:(reflexivity) ltac:(reflexivity) ltac:(reflexivity))
    as (Hst & Hpaths & _ & Hnew & _).
  split; [exact Hst|]. split; [exact Hpaths | exact Hnew].
Defined.

(** What one upload request can do to the photo rows of any student:
    nothing, or give a student who had none exactly one. *)
Lemma upload_photo_paths `{E : Env} (data : photo_request) (w : World) (sid : nat) :
  photo_paths_of (fst (api_upload_photo data w)) sid = photo_paths_of w sid
  \/ (student_has_photo w sid = false
      /\ exists p, photo_paths_of (fst (api_upload_photo data w)) sid = [p]).
Proof.
  unfold api_upload_photo.
  destruct (req_student_id data) as [t|]; [|now left].
  destruct (req_photo data) as [photo|]; [|now left].
  destruct (_ || _); [now left|].
  destruct (find _ _); [|now left].
  destruct (student_has_photo w t) eqn:Hhas; [now left|].
  destruct (_ || _); [now left|].
  unfold save_base64_image. destruct (b64decode _) as [img|]; [|now left].
  cbv zeta.
  assert (Hall : forall w6 : World,
            photos w6 = photos w
                        ++ [mk_photo (S (photos_seq w)) t
                              (photo_path_of (Py.str t +:+ "_"
                                              +:+ strftime_stamp (now (clock w)) +:+ ".png"))
                              (Py.str t +:+ "_" +:+ strftime_stamp (now (clock w)) +:+ ".png")
                              (isoformat (now (S (clock w))))] ->
            photo_paths_of w6 sid = photo_paths_of w sid
            \/ (student_has_photo w sid = false /\ exists p, photo_paths_of w6 sid = [p])).
  { intros w6 Hp. unfold photo_paths_of at 1 3. rewrite Hp.
    rewrite List.filter_app, List.map_app. cbn [List.filter map p_student_id p_photo_path].
    destruct (t =? sid)%nat eqn:Hts.
    - apply Nat.eqb_eq in Hts. subst t. right. split; [exact Hhas|].
      unfold student_has_photo in Hhas. unfold photo_paths_of.
      destruct (List.filter _ (photos w)); [simpl; eauto | simpl in Hhas; discriminate]. 
    - left. apply app_nil_r. }
  destruct FACE_LIB_AVAILABLE; cbn [fst]; apply Hall; reflexivity.
Qed.

(** What one replace request can do to the photo rows of any student:
    nothing, or leave the student with at most one. *)
Lemma replace_photo_paths `{E : Env} (data : photo_request) (w : World) (sid : nat) :
  photo_paths_of (fst (api_replace_photo data w)) sid = photo_paths_of w sid
  \/ (length (photo_paths_of (fst (api_replace_photo data w)) sid) <= 1)%nat.
Proof.
  unfold api_replace_photo.
  destruct (req_student_id data) as [t|]; [|now left].
  destruct (req_photo data) as [photo|]; [|now left].
  destruct (_ || _); [now left|].
  destruct (find _ _); [|now left].
  unfold save_base64_image. destruct (b64decode _) as [img|]; cbv zeta.
  - assert (Hall : forall w6 : World,
              photos w6 = photos (delete_photo_rows t w)
                          ++ [mk_photo (S (photos_seq w)) t
                                (photo_path_of (Py.str t +:+ "_"
                                                +:+ strftime_stamp (now (clock w)) +:+ ".png"))
                                (Py.str t +:+ "_" +:+ strftime_stamp (now (clock w)) +:+ ".png")
                                (isoformat (now (S (clock w))))] ->
              photo_paths_of w6 sid = photo_paths_of w sid
              \/ (length (photo_paths_of w6 sid) <= 1)%nat).
    { intros w6 Hp. unfold photo_paths_of at 1 3. rewrite Hp.
      rewrite List.filter_app, List.map_app. cbn [List.filter map p_student_id p_photo_path].
      fold (photo_paths_of (delete_photo_rows t w) sid).
      rewrite photo_paths_after_delete_rows.
      destruct (sid =? t)%nat eqn:Hst.
      - right. simpl. destruct (t =? sid)%nat; simpl; lia.
      - left. apply Nat.eqb_neq in Hst.
        assert ((t =? sid)%nat = false) as -> by (apply Nat.eqb_neq; lia).
        apply app_nil_r. }
    destruct FACE_LIB_AVAILABLE; cbn [fst]; apply Hall; reflexivity.
  - cbn [fst].
    rewrite (photo_paths_same_photos _ (delete_photo_rows t w) sid) by reflexivity.
    rewrite photo_paths_after_delete_rows.
    destruct (sid =? t)%nat; [right; simpl; lia | now left].
Qed.

(** X10. Option A of [api_upload_photo]: whatever the request, an upload
    never changes the photo rows of a student who already has a photo. *)
Theorem upload_never_adds_second_photo `{E : Env}
        (data : photo_request) (w : World) (sid : nat) :
  student_has_photo w sid = true ->
  photo_paths_of (fst (api_upload_photo data w)) sid = photo_paths_of w sid.
Proof.
  intros Hhas. destruct (upload_photo_paths data w sid) as [H | [Hno _]]; [exact H|].
  congruence.
Qed.

Lemma upload_never_adds_second_photo_witness :
  photo_paths_of (fst (@api_upload_photo toy_env (mk_photo_request (Some 7%nat) (Some "K")) w0)) 7
  = photo_paths_of w0 7.
Proof.
  apply (@upload_never_adds_second_photo toy_env). reflexivity.
Defined.

(** X11. The warming thread after a replacement. With the face library
    present and no other thread pending, once the thread started by a
    successful [api_replace_photo] has run, the cache entry of the new
    path is the first face of the new photo if the path had no entry, and
    the entry it already had otherwise; no other key is touched. *)
Theorem replace_then_warm `{E : Env}
        (student_id : nat) (photo_b64 : string) (img : bytes) (w : World) :
  FACE_LIB_AVAILABLE = true ->
  student_id <> 0%nat -> Py.truthy photo_b64 = true ->
  (exists s, In s (students w) /\ s_student_id s = student_id) ->
  b64decode (Py.strip_data_url photo_b64) = Some img ->
  threads w = [] ->
  let w' := run_thread
              (fst (api_replace_photo (mk_photo_request (Some student_id) (Some photo_b64)) w)) in
  let path := stamped_path student_id (strftime_stamp (now (clock w))) in
  threads w' = []
  /\ ENCODING_CACHE w' !! path
     = match ENCODING_CACHE w !! path with
       | Some kept => Some kept
       | None => match load_image_file img with
                 | Some im => hd_error (face_encodings im)
                 | None => None
                 end
       end
  /\ (forall k, k <> path -> ENCODING_CACHE w' !! k = ENCODING_CACHE w !! k).
Proof.
  intros Hlib Hid Hphoto Hs Hdec Hthreads w' path. subst w'.
  rewrite (replace_photo_accepted student_id photo_b64 w Hid Hphoto Hs).
  unfold save_base64_image. rewrite Hdec, Hlib. cbv zeta.
  fold (stamped_path student_id (strftime_stamp (now (clock w)))). fold path.
  unfold run_thread. cbn [fst threads with_threads with_photos tick with_files
                          delete_photo_rows].
  rewrite Hthreads. cbn [app].
  unfold compute_face_encoding_from_file. rewrite Hlib. cbn [negb].
  cbn [ENCODING_CACHE with_threads with_photos tick with_files delete_photo_rows].
  destruct (ENCODING_CACHE w !! path) as [kept|] eqn:Hc.
  - cbn [fst threads ENCODING_CACHE with_threads]. repeat split. exact Hc.
  - unfold extract. cbn [files with_threads with_photos tick with_files delete_photo_rows].
    rewrite lookup_insert_eq.
    destruct (load_image_file img) as [im|]; [destruct (face_encodings im) as [|e rest]|];
      cbn [fst threads ENCODING_CACHE with_cache with_extractions with_threads hd_error];
      (split; [reflexivity|]); (split; [|intros k Hk]);
      rewrite ?lookup_insert_eq, ?lookup_insert_ne by congruence; try reflexivity;
      exact Hc.
Qed.

Lemma replace_then_warm_witness :
  ENCODING_CACHE
    (@run_thread toy_env
       (fst (@api_replace_photo toy_env (mk_photo_request (Some 7%nat) (Some "K")) w0)))
    !! "/srv/static/photos/7_20240501090000.png" = Some [inject_Z 75].
Proof.
  destruct (@replace_then_warm toy_env 7 "K" "K" w0
              ltac:(reflexivity) ltac:(discriminate) ltac:(reflexivity)
              ltac:(exists (mk_student 7 (Some "CS101") "Asha"); split;
                    [left; reflexivity | reflexivity])
              ltac:(reflexivity) ltac:(reflexivity))
    as (_ & Hnew & _).
  exact Hnew.
Defined.


(** ** What recognition reads and what it writes *)

Lemma compute_frame `{E : Env} (path : string) (w : World) :
  same_enrolment w (fst (compute_face_encoding_from_file path w))
  /\ threads (fst (compute_face_encoding_from_file path w)) = threads w
  /\ clock (fst (compute_face_encoding_from_file path w)) = clock w
  /\ (forall k e, ENCODING_CACHE w !! k = Some e ->
        ENCODING_CACHE (fst (compute_face_encoding_from_file path w)) !! k = Some e).
Proof.
  unfold compute_face_encoding_from_file, same_enrolment.
  destruct (negb FACE_LIB_AVAILABLE); [repeat split; auto|].
  destruct (ENCODING_CACHE w !! path) as [hit|] eqn:Hc; [repeat split; auto|].
  destruct (extract w path) as [[|enc rest]|]; cbn; repeat split; auto.
  intros k e Hk. destruct (decide (path = k)) as [<- | Hne]; [congruence|].
  now rewrite lookup_insert_ne.
Qed.

Lemma gallery_loop_frame `{E : Env} (rows : list photo_row) (w : World)
      (ke : list encoding) (km : list meta) :
  same_enrolment w (fst (fst (gallery_loop rows w ke km)))
  /\ threads (fst (fst (gallery_loop rows w ke km))) = threads w
  /\ clock (fst (fst (gallery_loop rows w ke km))) = clock w
  /\ (forall k e, ENCODING_CACHE w !! k = Some e ->
        ENCODING_CACHE (fst (fst (gallery_loop rows w ke km))) !! k = Some e).
Proof.
  revert w ke km. induction rows as [|r rest IH]; intros w ke km; simpl.
  - unfold same_enrolment. repeat split; auto.
  - pose proof (compute_frame (p_photo_path r) w) as (Hs & Ht & Hk & Hc).
    destruct (compute_face_encoding_from_file (p_photo_path r) w) as [w1 [e|]];
      cbn [fst] in Hs, Ht, Hk, Hc.
    + destruct (IH w1 (ke ++ [e]) (km ++ [(p_id r, p_student_id r, p_photo_path r)]))
        as (Hs' & Ht' & Hk' & Hc').
      unfold same_enrolment in *. repeat split; try (etransitivity; [apply Hs' | apply Hs]);
        try congruence; auto.
    + destruct (IH w1 ke km) as (Hs' & Ht' & Hk' & Hc').
      unfold same_enrolment in *. repeat split; try (etransitivity; [apply Hs' | apply Hs]);
        try congruence; auto.
Qed.

Lemma match_loop_frame `{E : Env} (ke : list encoding) (km : list meta)
      (us : list encoding) (st : World * list json) :
  same_enrolment (fst st) (fst (match_loop ke km us st))
  /\ threads (fst (match_loop ke km us st)) = threads (fst st)
  /\ ENCODING_CACHE (fst (match_loop ke km us st)) = ENCODING_CACHE (fst st).
Proof.
  revert st. induction us as [|u rest IH]; intros st; cbn [match_loop].
  - unfold same_enrolment. repeat split.
  - destruct (IH (match_one ke km u st)) as (Hs & Ht & Hc).
    assert (Hone : same_enrolment (fst st) (fst (match_one ke km u st))
                   /\ threads (fst (match_one ke km u st)) = threads (fst st)
                   /\ ENCODING_CACHE (fst (match_one ke km u st)) = ENCODING_CACHE (fst st)).
    { destruct st as [w ms]. unfold match_one, same_enrolment.
      destruct (length ke =? 0)%nat; [repeat split|].
      destruct (Np.Qltb _ _); repeat split. }
    destruct Hone as (Hs1 & Ht1 & Hc1).
    unfold same_enrolment in *. repeat split; try congruence;
      try (etransitivity; [apply Hs | apply Hs1]).
Qed.

(** X12. Recognition only reads the enrolment: whatever the request,
    [api_mark_attendance] leaves the students, the photo rows and the
    files as they were and starts no thread, and it never drops or
    changes an entry of the encoding cache (it can only add entries). *)
Theorem mark_attendance_keeps_enrolment `{E : Env} (data : mark_request) (w : World) :
  same_enrolment w (fst (api_mark_attendance data w))
  /\ threads (fst (api_mark_attendance data w)) = threads w
  /\ (forall k e, ENCODING_CACHE w !! k = Some e ->
        ENCODING_CACHE (fst (api_mark_attendance data w)) !! k = Some e).
Proof.
  unfold api_mark_attendance.
  destruct (negb FACE_LIB_AVAILABLE); [unfold same_enrolment; repeat split; auto|].
  destruct (select_image data) as [resp | [pil_img checked]];
    [unfold same_enrolment; repeat split; auto|].
  unfold recognise.
  destruct (compute_face_encodings_from_pil pil_img) as [|u us];
    [unfold same_enrolment; repeat split; auto|].
  pose proof (gallery_loop_frame (photos w) w [] []) as (Hs & Ht & _ & Hc).
  destruct (gallery_loop (photos w) w [] []) as [[w1 ke] km]. cbn [fst] in Hs, Ht, Hc.
  pose proof (match_loop_frame ke km (u :: us) (w1, [])) as (Hs' & Ht' & Hc').
  destruct (match_loop ke km (u :: us) (w1, [])) as [w2 matches].
  cbn [fst] in Hs', Ht', Hc' |- *.
  unfold same_enrolment in *. repeat split; try congruence;
    try (etransitivity; [apply Hs' | apply Hs]).
  intros k e Hk. rewrite Hc'. now apply Hc.
Qed.

Lemma recognise_keeps_photos `{E : Env} (pil_img : rgb_image) (checked : bool) (w : World) :
  photos (fst (recognise pil_img checked w)) = photos w.
Proof.
  unfold recognise.
  destruct (compute_face_encodings_from_pil pil_img) as [|u us]; [reflexivity|].
  pose proof (gallery_loop_frame (photos w) w [] []) as ((_ & Hp & _) & _).
  destruct (gallery_loop (photos w) w [] []) as [[w1 ke] km]. cbn [fst] in Hp.
  pose proof (match_loop_frame ke km (u :: us) (w1, [])) as ((_ & Hp' & _) & _).
  destruct (match_loop ke km (u :: us) (w1, [])) as [w2 matches].
  cbn [fst] in Hp' |- *. congruence.
Qed.

(** X13. Every answer of [api_mark_attendance] other than 200 (the 500s,
    the 403 and the 400s) comes with the world exactly as it was: no
    attendance row, no cache entry, no clock reading. *)
Theorem mark_attendance_rejected_without_effect `{E : Env}
        (data : mark_request) (w : World) :
  status (snd (api_mark_attendance data w)) <> 200%nat ->
  fst (api_mark_attendance data w) = w.
Proof.
  unfold api_mark_attendance.
  destruct (negb FACE_LIB_AVAILABLE); [reflexivity|].
  destruct (select_image data) as [resp | [pil_img checked]]; [reflexivity|].
  unfold recognise.
  destruct (compute_face_encodings_from_pil pil_img) as [|u us]; [reflexivity|].
  destruct (gallery_loop (photos w) w [] []) as [[w1 ke] km].
  destruct (match_loop ke km (u :: us) (w1, [])) as [w2 matches].
  cbn [fst snd status]. congruence.
Qed.

Lemma mark_attendance_rejected_without_effect_witness :
  fst (@api_mark_attendance toy_env (mk_mark_request (Some ["b0A"; "b0A"]) None) w0) = w0.
Proof.
  apply (@mark_attendance_rejected_without_effect toy_env). vm_compute. discriminate.
Defined.

Lemma compute_hit `{E : Env} (path : string) (w : World) (e : encoding) :
  FACE_LIB_AVAILABLE = true -> ENCODING_CACHE w !! path = Some e ->
  compute_face_encoding_from_file path w = (w, Some e).
Proof.
  intros Hlib Hc. unfold compute_face_encoding_from_file. now rewrite Hlib, Hc.
Qed.

Lemma compute_some_cached `{E : Env} (path : string) (w : World) (e : encoding) :
  snd (compute_face_encoding_from_file path w) = Some e ->
  FACE_LIB_AVAILABLE = true
  /\ ENCODING_CACHE (fst (compute_face_encoding_from_file path w)) !! path = Some e.
Proof.
  unfold compute_face_encoding_from_file.
  destruct FACE_LIB_AVAILABLE; cbn [negb]; [|discriminate].
  destruct (ENCODING_CACHE w !! path) as [hit|] eqn:Hc.
  - cbn [fst snd]. intros [= ->]. now split.
  - destruct (extract w path) as [[|enc rest]|]; cbn [fst snd]; try discriminate.
    intros [= ->]. split; [reflexivity|]. cbn. apply lookup_insert_eq.
Qed.

(** X14. A lookup that returned an encoding has made the path a cache
    hit: any later lookup of that path returns the same encoding without
    calling the extractor and without changing anything, whatever has
    happened to the files in between. *)
Theorem cached_encoding_is_served_without_reading `{E : Env}
        (path : string) (w : World) (e : encoding) (fs : gmap string bytes) :
  snd (compute_face_encoding_from_file path w) = Some e ->
  compute_face_encoding_from_file path
    (with_files (fst (compute_face_encoding_from_file path w)) fs)
  = (with_files (fst (compute_face_encoding_from_file path w)) fs, Some e).
Proof.
  intros H. destruct (compute_some_cached path w e H) as [Hlib Hc].
  apply compute_hit; [exact Hlib | exact Hc].
Qed.

Lemma cached_encoding_is_served_without_reading_witness :
  @compute_face_encoding_from_file toy_env cs101_png
    (with_files (fst (@compute_face_encoding_from_file toy_env cs101_png w0))
                {[ cs101_png := "Z" ]})
  = (with_files (fst (@compute_face_encoding_from_file toy_env cs101_png w0))
                {[ cs101_png := "Z" ]},
     Some [inject_Z 65]).
Proof.
  apply (@cached_encoding_is_served_without_reading toy_env cs101_png w0 [inject_Z 65]).
  vm_compute. reflexivity.
Defined.

(** ** The gallery *)

(** A path that is not cached and whose file shows no face. *)
Lemma no_face_stays_uncached_step `{E : Env} (p path : string) (w : World) :
  ENCODING_CACHE w !! p = None ->
  extract w p = None \/ extract w p = Some [] ->
  ENCODING_CACHE (fst (compute_face_encoding_from_file path w)) !! p = None
  /\ (extract (fst (compute_face_encoding_from_file path w)) p = None
      \/ extract (fst (compute_face_encoding_from_file path w)) p = Some []).
Proof.
  intros Hc Hx. unfold compute_face_encoding_from_file.
  destruct (negb FACE_LIB_AVAILABLE); [now split|].
  destruct (ENCODING_CACHE w !! path) as [hit|] eqn:Hhit; [now split|].
  destruct (extract w path) as [[|enc rest]|] eqn:Hext; cbn [fst]; try (now split).
  split; [|exact Hx]. cbn.
  destruct (decide (path = p)) as [-> | Hne].
  - destruct Hx as [Hx | Hx]; congruence.
  - now rewrite lookup_insert_ne.
Qed.

Lemma no_face_stays_uncached `{E : Env} (p : string) (rows : list photo_row)
      (w : World) (ke : list encoding) (km : list meta) :
  ENCODING_CACHE w !! p = None ->
  extract w p = None \/ extract w p = Some [] ->
  ENCODING_CACHE (fst (fst (gallery_loop rows w ke km))) !! p = None.
Proof.
  revert w ke km. induction rows as [|r rest IH]; intros w ke km Hc Hx; simpl; [exact Hc|].
  pose proof (no_face_stays_uncached_step p (p_photo_path r) w Hc Hx) as [Hc' Hx'].
  destruct (compute_face_encoding_from_file (p_photo_path r) w) as [w1 [e|]];
    cbn [fst] in Hc', Hx'; now apply IH.
Qed.

Lemma compute_none `{E : Env} (path : string) (w : World) :
  FACE_LIB_AVAILABLE = true ->
  snd (compute_face_encoding_from_file path w) = None ->
  ENCODING_CACHE (fst (compute_face_encoding_from_file path w)) !! path = None
  /\ (extract (fst (compute_face_encoding_from_file path w)) path = None
      \/ extract (fst (compute_face_encoding_from_file path w)) path = Some []).
Proof.
  intros Hlib. unfold compute_face_encoding_from_file. rewrite Hlib. cbn [negb].
  destruct (ENCODING_CACHE w !! path) as [hit|] eqn:Hhit; [discriminate|].
  destruct (extract w path) as [[|enc rest]|] eqn:Hext; cbn [fst snd];
    try discriminate; intros _; (split; [exact Hhit|]);
    change (extract w path = None \/ extract w path = Some []); rewrite Hext; auto.
Qed.

Lemma gallery_loop_spec `{E : Env} (rows : list photo_row) (w : World)
      (ke : list encoding) (km : list meta) :
  FACE_LIB_AVAILABLE = true ->
  snd (fst (gallery_loop rows w ke km))
  = ke ++ map fst (cached_rows (ENCODING_CACHE (fst (fst (gallery_loop rows w ke km)))) rows)
  /\ snd (gallery_loop rows w ke km)
     = km ++ map snd (cached_rows (ENCODING_CACHE (fst (fst (gallery_loop rows w ke km)))) rows).
Proof.
  intros Hlib. revert w ke km.
  induction rows as [|r rest IH]; intros w ke km; simpl.
  - now rewrite !app_nil_r.
  - destruct (compute_face_encoding_from_file (p_photo_path r) w) as [w1 [e|]] eqn:Hcomp.
    + destruct (IH w1 (ke ++ [e]) (km ++ [(p_id r, p_student_id r, p_photo_path r)]))
        as [Hke Hkm].
      assert (Hcached : ENCODING_CACHE w1 !! p_photo_path r = Some e).
      { pose proof (compute_some_cached (p_photo_path r) w e) as Hs.
        rewrite Hcomp in Hs. now apply Hs. }
      pose proof (gallery_loop_frame rest w1 (ke ++ [e])
                    (km ++ [(p_id r, p_student_id r, p_photo_path r)])) as (_ & _ & _ & Hmono).
      rewrite (Hmono _ _ Hcached). simpl.
      rewrite Hke, Hkm, <- !app_assoc. now split.
    + destruct (IH w1 ke km) as [Hke Hkm].
      pose proof (compute_none (p_photo_path r) w Hlib) as Hn.
      rewrite Hcomp in Hn. destruct (Hn eq_refl) as [Hc Hx].
      rewrite (no_face_stays_uncached (p_photo_path r) rest w1 ke km Hc Hx). simpl.
      now split.
Qed.

(** X15. The gallery of a request. With the face library present, the
    loop over the photo rows returns, in table order, exactly the rows
    whose path has an entry in the cache as the loop leaves it, each with
    that cached encoding; rows whose photo shows no face or cannot be
    read are skipped and the rest is kept. *)
Theorem gallery_is_the_cached_rows `{E : Env} (w : World) :
  FACE_LIB_AVAILABLE = true ->
  let g := gallery_loop (photos w) w [] [] in
  snd (fst g) = map fst (cached_rows (ENCODING_CACHE (fst (fst g))) (photos w))
  /\ snd g = map snd (cached_rows (ENCODING_CACHE (fst (fst g))) (photos w))
  /\ length (snd g) = length (snd (fst g)).
Proof.
  intros Hlib g. subst g.
  destruct (gallery_loop_spec (photos w) w [] [] Hlib) as [Hke Hkm].
  split; [exact Hke | split; [exact Hkm|]].
  now apply gallery_loop_aligned.
Qed.

Lemma gallery_is_the_cached_rows_witness :
  snd (fst (@gallery_loop toy_env (photos w0) w0 [] [])) = [[inject_Z 65]]
  /\ snd (@gallery_loop toy_env (photos w0) w0 [] []) = [(1%nat, 7%nat, cs101_png)].
Proof.
  destruct (@gallery_is_the_cached_rows toy_env w0 eq_refl) as (Hke & Hkm & _).
  split; [rewrite Hke | rewrite Hkm]; vm_compute; reflexivity.
Defined.

(** ** Who can be matched *)

Lemma gallery_loop_metas `{E : Env} (all rows : list photo_row) (w : World)
      (ke : list encoding) (km : list meta) :
  (forall r, In r rows -> In r all) ->
  Forall (fun m => exists r, In r all /\ m = meta_of r) km ->
  Forall (fun m => exists r, In r all /\ m = meta_of r) (snd (gallery_loop rows w ke km)).
Proof.
  revert w ke km. induction rows as [|r rest IH]; intros w ke km Hsub Hkm; simpl; [exact Hkm|].
  destruct (compute_face_encoding_from_file (p_photo_path r) w) as [w1 [e|]].
  - apply IH; [intros x Hx; apply Hsub; now right|].
    apply Forall_app. split; [exact Hkm|]. constructor; [|constructor].
    exists r. split; [apply Hsub; now left | reflexivity].
  - apply IH; [intros x Hx; apply Hsub; now right | exact Hkm].
Qed.

Lemma match_entry_of_photo (w : World) (r : photo_row) (d : Q) :
  (d < 1 # 2)%Q -> entry_of_photo r (match_entry w (meta_of r) d).
Proof.
  intros Hd. unfold entry_of_photo, match_entry, meta_of.
  split; [reflexivity | split; [reflexivity|]]. exists d. split; [reflexivity | exact Hd].
Qed.

Lemma match_one_entries `{E : Env} (all : list photo_row) (ke : list encoding)
      (km : list meta) (u : encoding) (st : World * list json) :
  length km = length ke ->
  Forall (fun m => exists r, In r all /\ m = meta_of r) km ->
  Forall (fun j => exists r, In r all /\ entry_of_photo r j) (snd st) ->
  Forall (fun j => exists r, In r all /\ entry_of_photo r j) (snd (match_one ke km u st)).
Proof.
  intros Hlen Hkm Hms. destruct st as [w ms]. unfold match_one.
  destruct (length ke =? 0)%nat eqn:Hz; [exact Hms|].
  destruct (Np.Qltb _ _) eqn:Hq; [|exact Hms].
  cbn [snd] in *. apply Forall_app. split; [exact Hms|]. constructor; [|constructor].
  apply Qltb_true in Hq.
  assert (Hne : distances_to ke u <> []).
  { unfold distances_to. destruct ke; simpl in *; congruence. }
  destruct (argmin_first_minimum (distances_to ke u) Hne) as (Hb & _ & _).
  assert (Hd : length (distances_to ke u) = length ke)
    by (unfold distances_to; apply length_map).
  rewrite Hd, <- Hlen in Hb.
  rewrite List.Forall_forall in Hkm.
  destruct (Hkm (nth (Np.argmin (distances_to ke u)) km no_meta)) as (r & Hr & Hm);
    [now apply nth_In|].
  exists r. split; [exact Hr|]. rewrite Hm. now apply match_entry_of_photo.
Qed.

Lemma match_loop_entries `{E : Env} (all : list photo_row) (ke : list encoding)
      (km : list meta) (us : list encoding) (st : World * list json) :
  length km = length ke ->
  Forall (fun m => exists r, In r all /\ m = meta_of r) km ->
  Forall (fun j => exists r, In r all /\ entry_of_photo r j) (snd st) ->
  Forall (fun j => exists r, In r all /\ entry_of_photo r j) (snd (match_loop ke km us st)).
Proof.
  intros Hlen Hkm. revert st. induction us as [|u rest IH]; intros st Hms; cbn [match_loop];
    [exact Hms|].
  apply IH. now apply match_one_entries.
Qed.

Lemma recognise_entries `{E : Env} (pil_img : rgb_image) (checked : bool) (w : World)
      (ms : list json) :
  json_get "matched" (body (snd (recognise pil_img checked w))) = Some (JList ms) ->
  Forall (fun j => exists r, In r (photos w) /\ entry_of_photo r j) ms.
Proof.
  unfold recognise. intros H.
  destruct (compute_face_encodings_from_pil pil_img) as [|u us].
  { simpl in H. injection H as <-. constructor. }
  pose proof (gallery_loop_aligned (photos w) w [] [] eq_refl) as Hlen.
  pose proof (gallery_loop_metas (photos w) (photos w) w [] [] (fun r Hr => Hr)
                (List.Forall_nil _)) as Hkm.
  destruct (gallery_loop (photos w) w [] []) as [[w1 ke] km]. cbn [fst snd] in Hlen, Hkm.
  pose proof (match_loop_entries (photos w) ke km (u :: us) (w1, []) Hlen Hkm
                (List.Forall_nil _)) as Hms.
  destruct (match_loop ke km (u :: us) (w1, [])) as [w2 matches].
  simpl in H. injection H as <-. exact Hms.
Qed.

(** X16. Every entry of [matched] names an enrolled photo: it carries
    the student id and the path of some row of the photos table as it was
    when the request arrived, and a distance strictly below 1/2. *)
Theorem matches_name_enrolled_photos `{E : Env}
        (data : mark_request) (w : World) (ms : list json) :
  json_get "matched" (body (snd (api_mark_attendance data w))) = Some (JList ms) ->
  Forall (fun j => exists r, In r (photos w) /\ entry_of_photo r j) ms.
Proof.
  unfold api_mark_attendance. intros H.
  destruct (negb FACE_LIB_AVAILABLE); [discriminate H|].
  destruct (select_image data) as [resp | [pil_img checked]] eqn:Hsel.
  - simpl in H. rewrite (select_image_early_return data resp Hsel) in H. discriminate H.
  - now apply (recognise_entries pil_img checked w ms).
Qed.

Lemma matches_name_enrolled_photos_witness :
  Forall (fun j => exists r, In r (photos w0) /\ entry_of_photo r j)
         [@match_entry w0 (1%nat, 7%nat, cs101_png) (0 # 100)].
Proof.
  apply (@matches_name_enrolled_photos toy_env (mk_mark_request None (Some "sA")) w0).
  vm_compute. reflexivity.
Defined.

(** X17. A deleted student is never marked present again: after
    [api_delete_student], no answer of [api_mark_attendance] lists that
    student id in [matched], whatever the cache still holds. *)
Theorem deleted_student_is_never_matched `{E : Env}
        (student_id : nat) (data : mark_request) (w : World) (ms : list json) :
  json_get "matched"
    (body (snd (api_mark_attendance data (fst (api_delete_student student_id w)))))
  = Some (JList ms) ->
  Forall (fun j => json_get "student_id" j <> Some (JInt (Z.of_nat student_id))) ms.
Proof.
  unfold api_mark_attendance. intros H.
  destruct (negb FACE_LIB_AVAILABLE); [discriminate H|].
  destruct (select_image data) as [resp | [pil_img checked]] eqn:Hsel.
  { simpl in H. rewrite (select_image_early_return data resp Hsel) in H. discriminate H. }
  apply recognise_entries in H.
  eapply List.Forall_impl; [|exact H]. cbv beta.
  intros j (r & Hr & Hid & _) Hj.
  unfold api_delete_student in Hr. cbn in Hr.
  apply filter_In in Hr as [_ Hr]. apply negb_true_iff, Nat.eqb_neq in Hr.
  rewrite Hid in Hj. injection Hj as Hj. apply Nat2Z.inj in Hj. contradiction.
Qed.

Lemma deleted_student_is_never_matched_witness :
  Forall (fun j => json_get "student_id" j <> Some (JInt (Z.of_nat 1)))
         [@match_entry (fst (api_delete_student 1 w_two))
            (2%nat, 11%nat, "/srv/static/photos/11_20240502.png") (1 # 100)].
Proof.
  apply (@deleted_student_is_never_matched toy_env 1 (mk_mark_request None (Some "sA")) w_two).
  vm_compute. reflexivity.
Defined.

(** ** Liveness at the level of the request *)

(** X18. Frames that do not pass the motion check are refused, and an
    image sent along does not change that: with at least two frames, if
    the check returns [False] or if any frame fails to decode, the answer
    is the 403 not-live response and nothing is recorded. *)
Theorem static_or_broken_frames_are_refused `{E : Env}
        (fs : list string) (img : option string) (w : World) :
  FACE_LIB_AVAILABLE = true ->
  (2 <= length fs)%nat ->
  frames_have_motion_default fs = Returns false
  \/ (exists f, In f fs /\ decode_gray f = None) ->
  api_mark_attendance (mk_mark_request (Some fs) img) w = (w, not_live_response).
Proof.
  intros Hlib Hlen Hwhy.
  assert (Hfalse : frames_have_motion_default fs = Returns false).
  { destruct Hwhy as [H | Hbad]; [exact H|].
    unfold frames_have_motion_default, frames_have_motion.
    rewrite (gray_loop_undecodable _ _ Hbad). now destruct (_ || _). }
  unfold api_mark_attendance, select_image. cbn [frames].
  now rewrite Hlib, (usable_frames_enough fs Hlen), Hfalse.
Qed.

Lemma static_or_broken_frames_are_refused_witness :
  @api_mark_attendance toy_env (mk_mark_request (Some ["b0A"; "b0A"]) (Some "sA")) w0
  = (w0, not_live_response)
  /\ @api_mark_attendance toy_env (mk_mark_request (Some ["b0A"; "!"; "bzA"]) (Some "sA")) w0
     = (w0, not_live_response).
Proof.
  split.
  - apply (@static_or_broken_frames_are_refused toy_env);
      [reflexivity | simpl; lia | left; vm_compute; reflexivity].
  - apply (@static_or_broken_frames_are_refused toy_env);
      [reflexivity | simpl; lia | right].
    exists "!". split; [simpl; tauto | reflexivity].
Defined.

Lemma bdim_clash (m n : nat) :
  m <> n -> m <> 1%nat -> n <> 1%nat -> Np.bdim m n = None.
Proof.
  intros H1 H2 H3. unfold Np.bdim.
  assert ((m =? n)%nat = false) as -> by now apply Nat.eqb_neq.
  assert ((m =? 1)%nat = false) as -> by now apply Nat.eqb_neq.
  assert ((n =? 1)%nat = false) as -> by now apply Nat.eqb_neq.
  reflexivity.
Qed.

Lemma pair_count_clash `{E : Env} (a b : Np.ndarray) (dt : Z) :
  sizes_clash a b -> pair_count a b dt = None.
Proof.
  intros [(H1 & H2 & H3) | (H1 & H2 & H3)]; unfold pair_count, Np.sub;
    cbn [Np.rows Np.cols Np.astype_int16].
  - now rewrite (bdim_clash _ _ H1 H2 H3).
  - rewrite (bdim_clash (Np.cols a) (Np.cols b) H1 H2 H3).
    now destruct (Np.bdim (Np.rows a) (Np.rows b)).
Qed.

(** X19. Frames of clashing sizes fail the check instead of deciding it.
    When all frames decode and the first two arrays cannot be subtracted
    (an extent differs and neither is 1), [frames_have_motion] raises for
    any thresholds, and the request is answered with the 500
    liveness-failure response, not with 403, and changes nothing. *)
Theorem clashing_frame_sizes_raise `{E : Env}
        (fs : list string) (g0 g1 : Np.ndarray) (gs : list Np.ndarray)
        (tp dt : Z) (img : option string) (w : World) :
  decoded fs (g0 :: g1 :: gs) ->
  sizes_clash g0 g1 ->
  frames_have_motion fs tp dt = Raises
  /\ (FACE_LIB_AVAILABLE = true ->
      api_mark_attendance (mk_mark_request (Some fs) img) w = (w, liveness_failed_response)).
Proof.
  intros Hdec Hclash.
  assert (Hlen : (2 <= length fs)%nat).
  { apply Forall2_length in Hdec. simpl in Hdec. lia. }
  assert (Hraise : forall tp' dt', frames_have_motion fs tp' dt' = Raises).
  { intros tp' dt'. unfold frames_have_motion.
    assert ((length fs =? 0)%nat || (length fs <? 2)%nat = false) as ->.
    { apply orb_false_iff. split; [apply Nat.eqb_neq | apply Nat.ltb_ge]; lia. }
    rewrite (gray_loop_decoded fs (g0 :: g1 :: gs) [] Hdec). cbn [app length Nat.sub].
    rewrite ?Nat.sub_0_r. cbn [seq pair_loop Nat.add nth].
    now rewrite (pair_count_clash g0 g1 dt' Hclash). }
  split; [apply Hraise|].
  intros Hlib. unfold api_mark_attendance, select_image. cbn [frames].
  rewrite Hlib, (usable_frames_enough fs Hlen).
  unfold frames_have_motion_default. now rewrite Hraise.
Qed.

Lemma clashing_frame_sizes_raise_witness :
  @frames_have_motion toy_env ["s0"; "sz"; "s0"] 1 30 = Returns true
  /\ @frames_have_motion toy_env ["s0"; "bz"; "s0"] 1 30 = Raises
  /\ @api_mark_attendance toy_env (mk_mark_request (Some ["s0"; "bz"; "s0"]) None) w0
     = (w0, liveness_failed_response).
Proof.
  split; [vm_compute; reflexivity|].
  destruct (@clashing_frame_sizes_raise toy_env ["s0"; "bz"; "s0"]
              (Np.mk_ndarray 2 2 (repeat 48%Z 4))
              (Np.mk_ndarray 32 33 (repeat 122%Z 1056))
              [Np.mk_ndarray 2 2 (repeat 48%Z 4)] 1 30 None w0
              ltac:(repeat (constructor; [vm_compute; reflexivity|]); constructor)
              ltac:(left; cbn; repeat split; lia))
    as [Hraise Hresp].
  split; [exact Hraise | apply Hresp; reflexivity].
Defined.

(** ** One request, end to end *)

Lemma compute_keeps_log `{E : Env} (path : string) (w : World) :
  attendance (fst (compute_face_encoding_from_file path w)) = attendance w
  /\ attendance_seq (fst (compute_face_encoding_from_file path w)) = attendance_seq w
  /\ clock (fst (compute_face_encoding_from_file path w)) = clock w
  /\ students (fst (compute_face_encoding_from_file path w)) = students w.
Proof.
  unfold compute_face_encoding_from_file.
  destruct (negb FACE_LIB_AVAILABLE); [repeat split|].
  destruct (ENCODING_CACHE w !! path); [repeat split|].
  destruct (extract w path) as [[|enc rest]|]; repeat split.
Qed.

Lemma match_entry_same_students (w w' : World) (m : meta) (d : Q) :
  students w' = students w -> match_entry w' m d = match_entry w m d.
Proof.
  intros H. destruct m as [[pid sid] ppath].
  unfold match_entry, student_name, student_roll. now rewrite H.
Qed.

(** X20. One enrolled photo, one face in the submitted image. When the
    request reaches recognition with liveness flag [checked], the only
    photo row [r] yields the encoding [ea] and the image shows exactly one
    face [q]: if their distance is below 1/2 the answer is 200 with the
    single match for [r] at that distance and the flag, and exactly one
    attendance row for [r]'s student, stamped with the current clock
    reading, is appended; otherwise the answer is 200 with an empty
    [matched] list and the flag, and no row is added. *)
Theorem one_face_against_one_photo `{E : Env}
        (data : mark_request) (w : World) (pil_img : rgb_image) (checked : bool)
        (r : photo_row) (ea q : encoding) :
  FACE_LIB_AVAILABLE = true ->
  select_image data = inr (pil_img, checked) ->
  face_encodings pil_img = [q] ->
  photos w = [r] ->
  snd (compute_face_encoding_from_file (p_photo_path r) w) = Some ea ->
  ((face_distance ea q < 1 # 2)%Q ->
   snd (api_mark_attendance data w)
   = mk_response 200
       (JObj [("success", JBool true);
              ("matched", JList [match_entry w (meta_of r) (face_distance ea q)]);
              ("liveness_checked", JBool checked)])
   /\ attendance (fst (api_mark_attendance data w))
      = attendance w
        ++ [mk_attendance (S (attendance_seq w)) (p_student_id r)
                          (strftime_date (now (clock w))) (strftime_time (now (clock w)))
                          "present" (isoformat (now (clock w)))])
  /\ (~ (face_distance ea q < 1 # 2)%Q ->
      snd (api_mark_attendance data w)
      = mk_response 200
          (JObj [("success", JBool true); ("matched", JList []);
                 ("liveness_checked", JBool checked)])
      /\ attendance (fst (api_mark_attendance data w)) = attendance w).
Proof.
  intros Hlib Hsel Hface Hphotos Hea.
  unfold api_mark_attendance, recognise, compute_face_encodings_from_pil.
  rewrite Hlib, Hsel, Hface, Hphotos. cbn [negb gallery_loop].
  pose proof (compute_keeps_log (p_photo_path r) w) as (Hatt & Hseq & Hclock & Hstud).
  destruct (compute_face_encoding_from_file (p_photo_path r) w) as [w1 res].
  cbn [fst snd] in Hea, Hatt, Hseq, Hclock, Hstud. subst res.
  cbn [app match_loop]. unfold match_one. cbn [length Nat.eqb distances_to map Np.argmin
                                                Np.argmin_from nth].
  fold (meta_of r).
  split.
  - intros Hlt. destruct (Np.Qltb _ _) eqn:Hq.
    + cbn [fst snd app]. rewrite (match_entry_same_students w w1 _ _ Hstud).
      split; [reflexivity|]. unfold insert_attendance, meta_of. cbn.
      now rewrite Hatt, Hseq, Hclock.
    + apply Qltb_false in Hq. exfalso. exact (Qlt_not_le _ _ Hlt Hq).
  - intros Hge. destruct (Np.Qltb _ _) eqn:Hq.
    + apply Qltb_true in Hq. contradiction.
    + cbn [fst snd]. split; [reflexivity | exact Hatt].
Qed.

Lemma one_face_against_one_photo_witness :
  (snd (@api_mark_attendance toy_env (mk_mark_request (Some ["b0A"; "bzB"]) None) w0)
   = mk_response 200
       (JObj [("success", JBool true);
              ("matched", JList [@match_entry w0 (1%nat, 7%nat, cs101_png) (1 # 100)]);
              ("liveness_checked", JBool true)])
   /\ attendance (fst (@api_mark_attendance toy_env
                         (mk_mark_request (Some ["b0A"; "bzB"]) None) w0))
      = [mk_attendance 1 7 "2024-05-01" "09:00:00" "present" "2024-05-01T09:00:00"])
  /\ (snd (@api_mark_attendance toy_env (mk_mark_request None (Some "sK")) w0)
      = mk_response 200
          (JObj [("success", JBool true); ("matched", JList []);
                 ("liveness_checked", JBool false)])
      /\ attendance (fst (@api_mark_attendance toy_env (mk_mark_request None (Some "sK")) w0))
         = []).
Proof.
  split.
  - apply (proj1 (@one_face_against_one_photo toy_env
                    (mk_mark_request (Some ["b0A"; "bzB"]) None) w0
                    [[(98, 98, 98); (122, 122, 122); (66, 66, 66)]]%Z true
                    (mk_photo 1 7 cs101_png "CS101.png" "2024-04-30T10:00:00")
                    [inject_Z 65] [inject_Z 66]
                    ltac:(reflexivity) ltac:(vm_compute; reflexivity)
                    ltac:(reflexivity) ltac:(reflexivity) ltac:(vm_compute; reflexivity))).
    vm_compute. reflexivity.
  - apply (proj2 (@one_face_against_one_photo toy_env
                    (mk_mark_request None (Some "sK")) w0
                    [[(115, 115, 115); (75, 75, 75)]]%Z false
                    (mk_photo 1 7 cs101_png "CS101.png" "2024-04-30T10:00:00")
                    [inject_Z 65] [inject_Z 75]
                    ltac:(reflexivity) ltac:(vm_compute; reflexivity)
                    ltac:(reflexivity) ltac:(reflexivity) ltac:(vm_compute; reflexivity))).
    vm_compute. discriminate.
Defined.

(** ** One photo per student *)

(** X21. No handler gives a student a second photo: if no student has
    more than one photo row, that is still so after [api_upload_photo],
    [api_replace_photo], [api_delete_student] and [api_mark_attendance],
    whatever the request. *)
Theorem one_photo_per_student_is_kept `{E : Env}
        (w : World) (pdata : photo_request) (mdata : mark_request) (student_id : nat) :
  at_most_one_photo w ->
  at_most_one_photo (fst (api_upload_photo pdata w))
  /\ at_most_one_photo (fst (api_replace_photo pdata w))
  /\ at_most_one_photo (fst (api_delete_student student_id w))
  /\ at_most_one_photo (fst (api_mark_attendance mdata w)).
Proof.
  intros Hinv. unfold at_most_one_photo in *. repeat split; intros sid.
  - destruct (upload_photo_paths pdata w sid) as [-> | [_ [p ->]]]; [apply Hinv | simpl; lia].
  - destruct (replace_photo_paths pdata w sid) as [-> | H]; [apply Hinv | exact H].
  - unfold api_delete_student. cbn [fst].
    rewrite (photo_paths_same_photos _ (delete_photo_rows student_id w) sid) by reflexivity.
    rewrite photo_paths_after_delete_rows.
    destruct (sid =? student_id)%nat; [simpl; lia | apply Hinv].
  - assert (Hp : photos (fst (api_mark_attendance mdata w)) = photos w).
    { unfold api_mark_attendance.
      destruct (negb FACE_LIB_AVAILABLE); [reflexivity|].
      destruct (select_image mdata) as [resp | [pil_img checked]]; [reflexivity|].
      apply recognise_keeps_photos. }
    rewrite (photo_paths_same_photos _ w sid Hp). apply Hinv.
Qed.

Lemma one_photo_per_student_is_kept_witness :
  at_most_one_photo
    (fst (@api_upload_photo toy_env (mk_photo_request (Some 7%nat) (Some "K")) w_enrolled))
  /\ at_most_one_photo
       (fst (@api_replace_photo toy_env (mk_photo_request (Some 7%nat) (Some "K")) w_enrolled))
  /\ at_most_one_photo (fst (api_delete_student 7 w_enrolled))
  /\ at_most_one_photo
       (fst (@api_mark_attendance toy_env (mk_mark_request None (Some "sA")) w_enrolled)).
Proof.
  apply (@one_photo_per_student_is_kept toy_env w_enrolled).
  intros sid. simpl. lia.
Defined.

(** ** Thresholds of the motion check *)

Lemma length_filter_le {A : Type} (p q : A -> bool) (l : list A) :
  (forall x, p x = true -> q x = true) ->
  (length (List.filter p l) <= length (List.filter q l))%nat.
Proof.
  intros H. induction l as [|x l IH]; simpl; [lia|].
  destruct (p x) eqn:Hp.
  - rewrite (H x Hp). simpl. lia.
  - destruct (q x); simpl; lia.
Qed.

Lemma changed_pixels_antitone (a b : Np.ndarray) (dt dt' : Z) :
  (dt' <= dt)%Z -> (changed_pixels a b dt <= changed_pixels a b dt')%Z.
Proof.
  intros H. unfold changed_pixels. apply Nat2Z.inj_le. apply length_filter_le.
  intros p Hp. apply Z.ltb_lt in Hp. apply Z.ltb_lt. lia.
Qed.

(** X22. Lowering a threshold never hides motion. On at least two
    decodable 8-bit frames of one size, if [frames_have_motion] returns
    [True] with thresholds [tp] and [dt], it returns [True] with any
    thresholds that are no larger. *)
Theorem lower_thresholds_keep_motion `{E : Env}
        (fs : list string) (grays : list Np.ndarray) (tp dt tp' dt' : Z) :
  (2 <= length fs)%nat -> decoded fs grays -> same_size_images grays ->
  (tp' <= tp)%Z -> (dt' <= dt)%Z ->
  frames_have_motion fs tp dt = Returns true ->
  frames_have_motion fs tp' dt' = Returns true.
Proof.
  intros Hlen Hdec Hs Htp Hdt.
  rewrite (frames_have_motion_counts fs grays tp dt Hlen Hdec Hs).
  rewrite (frames_have_motion_counts fs grays tp' dt' Hlen Hdec Hs).
  intros H. injection H as H. f_equal.
  apply existsb_exists in H as (i & Hi & Hc). apply existsb_exists.
  exists i. split; [exact Hi|]. apply Z.ltb_lt in Hc. apply Z.ltb_lt.
  pose proof (changed_pixels_antitone (nth i grays empty_array)
                (nth (i + 1) grays empty_array) dt dt' Hdt).
  lia.
Qed.

Lemma lower_thresholds_keep_motion_witness :
  @frames_have_motion toy_env ["s0"; "sz"] 0 10 = Returns true.
Proof.
  apply (@lower_thresholds_keep_motion toy_env ["s0"; "sz"]
           [Np.mk_ndarray 2 2 (repeat 48%Z 4); Np.mk_ndarray 2 2 (repeat 122%Z 4)]
           1 30 0 10).
  - simpl. lia.
  - repeat (constructor; [reflexivity|]). constructor.
  - repeat (constructor; [repeat split; reflexivity|]). constructor.
  - lia.
  - lia.
  - vm_compute. reflexivity.
Defined.

(** ** The photo handlers and the cache *)

(** X23. Neither [api_replace_photo] nor [api_upload_photo] writes the
    encoding cache: whatever the request and its outcome, the cache after
    the handler is the cache before it (only the thread they start may
    add an entry later). *)
Theorem photo_handlers_never_write_cache `{E : Env} (data : photo_request) (w : World) :
  ENCODING_CACHE (fst (api_replace_photo data w)) = ENCODING_CACHE w
  /\ ENCODING_CACHE (fst (api_upload_photo data w)) = ENCODING_CACHE w.
Proof.
  split; [apply api_replace_photo_keeps_cache|].
  unfold api_upload_photo, save_base64_image.
  destruct (req_student_id data) as [sid|]; [|reflexivity].
  destruct (req_photo data) as [photo|]; [|reflexivity].
  destruct (_ || _); [reflexivity|].
  destruct (find _ _); [|reflexivity].
  destruct (student_has_photo w sid); [reflexivity|].
  destruct (_ || _); [reflexivity|].
  destruct (b64decode _); [|reflexivity].
  destruct FACE_LIB_AVAILABLE; reflexivity.
Qed.


(** ** The attendance recorder *)

(** The world of a lookup does not depend on the attendance table. *)
Lemma compute_with_attendance `{E : Env} (path : string) (w : World)
      (rows : list attendance_row) (seq0 : nat) :
  compute_face_encoding_from_file path (with_attendance w rows seq0)
  = (with_attendance (fst (compute_face_encoding_from_file path w)) rows seq0,
     snd (compute_face_encoding_from_file path w)).
Proof.
  unfold compute_face_encoding_from_file.
  destruct (negb FACE_LIB_AVAILABLE); [reflexivity|].
  cbn [ENCODING_CACHE with_attendance].
  destruct (ENCODING_CACHE w !! path); [reflexivity|].
  change (extract (with_attendance w rows seq0) path) with (extract w path).
  destruct (extract w path) as [[|enc rest]|]; reflexivity.
Qed.

Lemma gallery_loop_with_attendance `{E : Env} (rs : list photo_row) (w : World)
      (ke : list encoding) (km : list meta) (rows : list attendance_row) (seq0 : nat) :
  gallery_loop rs (with_attendance w rows seq0) ke km
  = (with_attendance (fst (fst (gallery_loop rs w ke km))) rows seq0,
     snd (fst (gallery_loop rs w ke km)), snd (gallery_loop rs w ke km)).
Proof.
  revert w ke km. induction rs as [|r rest IH]; intros w ke km; cbn [gallery_loop];
    [reflexivity|].
  rewrite compute_with_attendance.
  destruct (compute_face_encoding_from_file (p_photo_path r) w) as [w1 [e|]];
    cbn [fst snd]; apply IH.
Qed.

(** One iteration of the matching loop records the matcher's decision,
    whatever the attendance table holds. *)
Lemma match_one_decision `{E : Env} (ke : list encoding) (km : list meta)
      (u : encoding) (w : World) (ms : list json) :
  match_one ke km u (w, ms)
  = match successful_match ke km u with
    | Some hit => (insert_attendance (hit_student hit) w,
                   ms ++ [match_entry w (fst hit) (snd hit)])
    | None => (w, ms)
    end.
Proof.
  unfold match_one, successful_match. destruct ke as [|k ke]; [reflexivity|].
  cbn [length Nat.eqb]. destruct (Np.Qltb _ _); reflexivity.
Qed.

Lemma match_loop_records `{E : Env} (ke : list encoding) (km : list meta)
      (us : list encoding) (w : World) (ms : list json) :
  attendance (fst (match_loop ke km us (w, ms)))
  = attendance w
    ++ events_from (attendance_seq w) (clock w)
                   (map hit_student (successful_matches ke km us))
  /\ snd (match_loop ke km us (w, ms))
     = ms ++ map (fun hit => match_entry w (fst hit) (snd hit)) (successful_matches ke km us).
Proof.
  revert w ms. induction us as [|u rest IH]; intros w ms; cbn [match_loop].
  - cbn. now rewrite !app_nil_r.
  - rewrite match_one_decision. unfold successful_matches. cbn [flat_map].
    fold (successful_matches ke km rest).
    destruct (successful_match ke km u) as [hit|].
    + destruct (IH (insert_attendance (hit_student hit) w)
                   (ms ++ [match_entry w (fst hit) (snd hit)])) as [Ha Hm].
      rewrite Ha, Hm. cbn [app map events_from]. split.
      * unfold insert_attendance. cbn. now rewrite <- app_assoc.
      * rewrite <- app_assoc. reflexivity.
    + cbn [app]. apply IH.
Qed.

(** The decision in the words of the specification. *)
Lemma successful_match_spec `{E : Env} (ke : list encoding) (km : list meta)
      (u : encoding) (m : meta) (d : Q) :
  successful_match ke km u = Some (m, d)
  <-> exists b : nat,
        first_minimum (distances_to ke u) b
        /\ d = nth b (distances_to ke u) 0%Q
        /\ m = nth b km no_meta
        /\ (d < 1 # 2)%Q.
Proof.
  unfold successful_match. split.
  - destruct ke as [|k ke]; [discriminate|].
    destruct (Np.Qltb _ _) eqn:Hq; [|discriminate].
    intros [= <- <-]. exists (Np.argmin (distances_to (k :: ke) u)).
    split; [apply argmin_first_minimum; discriminate|].
    split; [reflexivity | split; [reflexivity | now apply Qltb_true]].
  - intros (b & Hfirst & -> & -> & Hlt).
    destruct ke as [|k ke]; [destruct Hfirst as (Hb & _); simpl in Hb; lia|].
    assert (Hb : Np.argmin (distances_to (k :: ke) u) = b).
    { apply (first_minimum_unique (distances_to (k :: ke) u)); [|exact Hfirst].
      apply argmin_first_minimum. discriminate. }
    rewrite Hb. destruct (Np.Qltb _ _) eqn:Hq; [reflexivity|].
    apply Qltb_false in Hq. exfalso. exact (Qlt_not_le _ _ Hlt Hq).
Qed.

(** C6. No deduplication. Take any request that reaches recognition and
    replace the attendance table by any rows whatever. The matcher's
    decisions are those of the gallery and the query faces alone: a face
    is a successful match when the gallery entry at the first minimal
    distance is nearer than 1/2. The handler then appends exactly one new
    event per successful match, in order, for that entry's student, with
    status "present" and a fresh reading of the clock, keeps every row the
    table held, and lists the same matches in [matched]; the rows already
    there, for the same student and date or not, change nothing. *)
Theorem no_deduplication `{E : Env}
        (data : mark_request) (w : World) (pil_img : rgb_image) (checked : bool)
        (rows : list attendance_row) (seq0 : nat) :
  FACE_LIB_AVAILABLE = true ->
  select_image data = inr (pil_img, checked) ->
  attendance (fst (api_mark_attendance data (with_attendance w rows seq0)))
  = rows
    ++ events_from seq0 (clock w)
         (map hit_student
              (successful_matches (snd (fst (gallery_loop (photos w) w [] [])))
                                  (snd (gallery_loop (photos w) w [] []))
                                  (face_encodings pil_img)))
  /\ json_get "matched"
       (body (snd (api_mark_attendance data (with_attendance w rows seq0))))
     = Some (JList (map (fun hit => match_entry w (fst hit) (snd hit))
                        (successful_matches (snd (fst (gallery_loop (photos w) w [] [])))
                                            (snd (gallery_loop (photos w) w [] []))
                                            (face_encodings pil_img))))
  /\ (forall (ke : list encoding) (km : list meta) (u : encoding) (m : meta) (d : Q),
        successful_match ke km u = Some (m, d)
        <-> exists b : nat,
              first_minimum (distances_to ke u) b
              /\ d = nth b (distances_to ke u) 0%Q
              /\ m = nth b km no_meta
              /\ (d < 1 # 2)%Q).
Proof.
  intros Hlib Hsel. split; [|split; [|apply successful_match_spec]];
    unfold api_mark_attendance, recognise, compute_face_encodings_from_pil;
    rewrite Hlib, Hsel; cbn [negb];
    (destruct (face_encodings pil_img) as [|u us];
     [cbn; now rewrite ?app_nil_r|]);
    cbn [photos with_attendance];
    rewrite gallery_loop_with_attendance;
    pose proof (gallery_loop_frame (photos w) w [] []) as ((Hstud & _) & _ & Hclock & _);
    destruct (gallery_loop (photos w) w [] []) as [[w1 ke] km];
    cbn [fst snd] in Hstud, Hclock |- *;
    destruct (match_loop_records ke km (u :: us) (with_attendance w1 rows seq0) [])
      as [Ha Hm];
    destruct (match_loop ke km (u :: us) (with_attendance w1 rows seq0, []))
      as [w2 matches]; cbn [fst snd] in Ha, Hm |- *.
  - rewrite Ha. cbn [attendance attendance_seq clock with_attendance]. now rewrite Hclock.
  - cbn. rewrite Hm. cbn [app]. do 2 f_equal. apply map_ext. intros h.
    apply match_entry_same_students. exact Hstud.
Qed.

Lemma no_deduplication_witness :
  attendance (fst (@api_mark_attendance toy_env (mk_mark_request None (Some "sA")) w0_marked))
  = [mk_attendance 1 7 "2024-05-01" "08:00:00" "present" "2024-05-01T08:00:00";
     mk_attendance 2 7 "2024-05-01" "09:00:00" "present" "2024-05-01T09:00:00"]
  /\ json_get "matched"
       (body (snd (@api_mark_attendance toy_env (mk_mark_request None (Some "sA")) w0_marked)))
     = Some (JList [@match_entry w0 (1%nat, 7%nat, cs101_png) (0 # 100)]).
Proof.
  destruct (@no_deduplication toy_env (mk_mark_request None (Some "sA")) w0
              [[(115, 115, 115); (65, 65, 65)]]%Z false
              [mk_attendance 1 7 "2024-05-01" "08:00:00" "present" "2024-05-01T08:00:00"] 1
              ltac:(reflexivity) ltac:(reflexivity))
    as (Hrows & Hmatched & _).
  split.
  - etransitivity; [exact Hrows | vm_compute; reflexivity].
  - etransitivity; [exact Hmatched | vm_compute; reflexivity].
Defined.
